(** * Headless texture renderer (textureimageheadless.cpp): a shallow embedding

    The development follows [vra::test::RenderImage].  The Vulkan driver is an
    oracle that answers every API call with a status and, where the call has
    an output parameter, a handle; the program is a computation over the
    members of the [RenderImage] object, the log of API calls made so far and
    the host-visible memory. *)

From Stdlib Require Import ZArith List String Ascii DecimalString Bool Lia.
From Stdlib.Strings Require Import Byte.
From Stdlib Require Import Permutation.
Import ListNotations.
Open Scope Z_scope.

(* ================================================================== *)
(** ** Constants of vulkan.h used by the example *)
(* ================================================================== *)

Definition VkResult := Z.
Definition VK_SUCCESS : VkResult := 0.

Definition VK_MEMORY_PROPERTY_DEVICE_LOCAL_BIT  := 1.
Definition VK_MEMORY_PROPERTY_HOST_VISIBLE_BIT  := 2.
Definition VK_MEMORY_PROPERTY_HOST_COHERENT_BIT := 4.

Definition VK_QUEUE_GRAPHICS_BIT := 1.
Definition VK_STRUCTURE_TYPE_DEVICE_QUEUE_CREATE_INFO := 2.
Definition VK_COMMAND_POOL_CREATE_RESET_COMMAND_BUFFER_BIT := 2.

Definition VK_FORMAT_R8G8B8A8_UNORM := 37.
Definition VK_FORMAT_B8G8R8A8_UNORM := 44.
Definition VK_FORMAT_B8G8R8A8_SNORM := 45.
Definition VK_FORMAT_B8G8R8A8_SRGB  := 50.
Definition VK_FORMAT_D16_UNORM_S8_UINT := 128.

Definition VK_IMAGE_LAYOUT_UNDEFINED                := 0.
Definition VK_IMAGE_LAYOUT_GENERAL                  := 1.
Definition VK_IMAGE_LAYOUT_SHADER_READ_ONLY_OPTIMAL := 5.
Definition VK_IMAGE_LAYOUT_TRANSFER_SRC_OPTIMAL     := 6.
Definition VK_IMAGE_LAYOUT_TRANSFER_DST_OPTIMAL     := 7.

Definition VK_ACCESS_SHADER_READ_BIT    := 32.
Definition VK_ACCESS_TRANSFER_WRITE_BIT := 4096.
Definition VK_ACCESS_MEMORY_READ_BIT    := 32768.

Definition VK_PIPELINE_STAGE_FRAGMENT_SHADER_BIT := 128.
Definition VK_PIPELINE_STAGE_TRANSFER_BIT        := 4096.
Definition VK_PIPELINE_STAGE_HOST_BIT            := 16384.

Definition VK_SHADER_STAGE_VERTEX_BIT := 1.

Definition VK_BUFFER_USAGE_TRANSFER_SRC_BIT   := 1.
Definition VK_BUFFER_USAGE_TRANSFER_DST_BIT   := 2.
Definition VK_BUFFER_USAGE_UNIFORM_BUFFER_BIT := 16.
Definition VK_BUFFER_USAGE_INDEX_BUFFER_BIT   := 64.
Definition VK_BUFFER_USAGE_VERTEX_BUFFER_BIT  := 128.

Definition VK_IMAGE_USAGE_TRANSFER_SRC_BIT             := 1.
Definition VK_IMAGE_USAGE_TRANSFER_DST_BIT             := 2.
Definition VK_IMAGE_USAGE_SAMPLED_BIT                  := 4.
Definition VK_IMAGE_USAGE_COLOR_ATTACHMENT_BIT         := 16.
Definition VK_IMAGE_USAGE_DEPTH_STENCIL_ATTACHMENT_BIT := 32.

Definition VK_IMAGE_TILING_OPTIMAL := 0.
Definition VK_IMAGE_TILING_LINEAR  := 1.

Definition VK_NULL_HANDLE := 0.
Definition UINT64_MAX := 2 ^ 64 - 1.

(* ================================================================== *)
(** ** getMemoryTypeIndex *)
(* ================================================================== *)

(** The loop of [RenderImage::getMemoryTypeIndex].  [types] holds the
    [propertyFlags] of the memory types not yet visited, [i] is the loop
    counter and [type_bits] the mask as shifted so far. *)
Fixpoint getMemoryTypeIndex_loop (i : Z) (types : list Z)
                                 (type_bits properties : Z) : Z :=
  match types with
  | [] => 0
  | propertyFlags :: rest =>
      if (Z.land type_bits 1 =? 1)
         && (Z.land propertyFlags properties =? properties)
      then i
      else getMemoryTypeIndex_loop (i + 1) rest (Z.shiftr type_bits 1) properties
  end.

(** [memoryTypes] is the device's list of memory types, of length
    [memoryTypeCount], each given by its [propertyFlags]. *)
Definition getMemoryTypeIndex (memoryTypes : list Z)
                              (type_bits properties : Z) : Z :=
  getMemoryTypeIndex_loop 0 memoryTypes type_bits properties.

(** Memory type [i] qualifies for [(type_bits, properties)]. *)
Definition qualifies (memoryTypes : list Z) (type_bits properties : Z)
                     (i : Z) : Prop :=
  0 <= i < Z.of_nat (List.length memoryTypes)
  /\ Z.testbit type_bits i = true
  /\ Z.land (nth (Z.to_nat i) memoryTypes 0) properties = properties.

(* ================================================================== *)
(** ** The PPM writer of saveFramebufferImage *)
(* ================================================================== *)

(** Host-visible memory, byte addressed. *)
Definition Memory := Z -> byte.

(** [file << n] for an [int]. *)
Definition decimal (n : Z) : list byte :=
  list_byte_of_string (NilZero.string_of_int (Z.to_int n)).

Definition newline : list byte := list_byte_of_string (String "010"%char "").

(** [file << "P6\n" << width << "\n" << height << "\n" << 255 << "\n"] *)
Definition ppm_header (width height : Z) : list byte :=
  list_byte_of_string "P6" ++ newline
  ++ decimal width ++ newline
  ++ decimal height ++ newline
  ++ decimal 255 ++ newline.

Definition formatsBGR : list Z :=
  [VK_FORMAT_B8G8R8A8_SRGB; VK_FORMAT_B8G8R8A8_UNORM; VK_FORMAT_B8G8R8A8_SNORM].

(** [std::find(formatsBGR.begin(), formatsBGR.end(), f) != formatsBGR.end()] *)
Definition std_find_in (formats : list Z) (f : Z) : bool :=
  existsb (Z.eqb f) formats.

(** The swizzle flag as the code computes it: the value looked up is the
    literal [VK_FORMAT_R8G8B8A8_UNORM]. *)
Definition color_swizzle : bool :=
  std_find_in formatsBGR VK_FORMAT_R8G8B8A8_UNORM.

(** What the body of the inner loop writes for the pixel at [row]. *)
Definition write_pixel (mem : Memory) (swizzle : bool) (row : Z) : list byte :=
  if swizzle
  then [mem (row + 2); mem (row + 1); mem row]
  else [mem row; mem (row + 1); mem (row + 2)].

(** Inner loop: [x] runs over the [n] remaining pixels; [row] is an
    [unsigned int*], so [row++] advances four bytes. *)
Fixpoint write_row (mem : Memory) (swizzle : bool) (row : Z) (n : nat)
  : list byte :=
  match n with
  | O => []
  | S n' => write_pixel mem swizzle row ++ write_row mem swizzle (row + 4) n'
  end.

(** Outer loop: [y] runs over the [n] remaining rows;
    [imagedata += rowPitch] after each. *)
Fixpoint write_rows (mem : Memory) (swizzle : bool) (width rowPitch : Z)
                    (imagedata : Z) (n : nat) : list byte :=
  match n with
  | O => []
  | S n' =>
      write_row mem swizzle imagedata (Z.to_nat width)
      ++ write_rows mem swizzle width rowPitch (imagedata + rowPitch) n'
  end.

(** Everything saveFramebufferImage puts in the file, for the image that
    starts at [imagedata] in [mem]. *)
Definition ppm_file (mem : Memory) (swizzle : bool) (width height rowPitch : Z)
                    (imagedata : Z) : list byte :=
  ppm_header width height
  ++ write_rows mem swizzle width rowPitch imagedata (Z.to_nat height).

(** The packed pixel data the specification asks for: rows top to bottom,
    pixels left to right, three bytes each, the row [y] read at
    [imagedata + y * rowPitch]. *)
Definition packed_pixels (px : Z -> list byte) (width height rowPitch : Z)
                         (imagedata : Z) : list byte :=
  flat_map (fun y =>
    flat_map (fun x => px (imagedata + Z.of_nat y * rowPitch + 4 * Z.of_nat x))
             (seq 0 (Z.to_nat width)))
    (seq 0 (Z.to_nat height)).

(* ================================================================== *)
(** ** The object, the driver and the log of API calls *)
(* ================================================================== *)

(** The scalar members of [RenderImage] (textureimageheadless.h), nested
    members flattened, followed by the two locals whose addresses the
    upload functions hand to createBuffer.  Handles, formats, layouts, counts
    and flags are all integers. *)
Inductive Var : Type :=
| instance | physical_device | device | queue_family_index | pipeline_cache
| queue | command_pool | descriptor_set_layout | descriptor_set
| descriptor_pool | pipeline_layout | pipeline
| vertex_buffer | index_buffer | index_buffer_count
| vertex_memory | index_memory | layers_available
| color_format | depth_format
| uniform_buffer_modelview | uniform_buffer_memory
| width | height | use_texture | framebuffer
| color_attachment_image | color_attachment_memory | color_attachment_view
| depth_attachment_image | depth_attachment_memory | depth_attachment_view
| render_pass
| texture_image | texture_deviceMemory | texture_view | texture_sampler
| texture_width | texture_height | texture_mipLevels | texture_imageLayout
| debug_report_callback
| staging_buffer | staging_memory.

Definition Var_eq_dec (a b : Var) : {a = b} + {a <> b}.
Proof. decide equality. Defined.

(** A pointer into mapped device memory: the [VkDeviceMemory] it maps and a
    byte offset. *)
Definition Pointer : Type := Z * Z.

(** A host pointer passed as the [data] argument of createBuffer. *)
Inductive HostPtr : Type :=
| nullptr
| array_data (contents : list byte)   (* [v.data()] of a local vector *)
| address_of (v : Var).               (* [&member] *)

Record VkDeviceQueueCreateInfo := {
  sType : Z; queueFamilyIndex : Z; queueCount : Z }.

Record VkImageSubresourceRange := {
  aspectMask : Z; baseMipLevel : Z; levelCount : Z;
  baseArrayLayer : Z; layerCount : Z }.

Record VkImageMemoryBarrier := {
  srcAccessMask : Z; dstAccessMask : Z;
  oldLayout : Z; newLayout : Z;
  image : Z; subresourceRange : VkImageSubresourceRange }.

Record VkBufferImageCopy := {
  bufferOffset : Z; mipLevel : Z; region_baseArrayLayer : Z;
  region_layerCount : Z; imageExtent : Z * Z * Z }.

(** Single precision expressions are kept as written: the embedding does not
    evaluate them. *)
Inductive fexpr : Type :=
| f_lit (num : Z) (den : positive)    (* the literal num/den, as a float *)
| f_of_int (n : Z)                    (* [(float)n] *)
| f_div (a b : fexpr)
| glm_radians (a : fexpr).

Inductive mexpr : Type :=
| mat4_1                                           (* [glm::mat4(1.0f)] *)
| glm_perspective (fovy aspect zNear zFar : fexpr)
| glm_translate (m : mexpr) (x y z : fexpr)
| mat_mul (a b : mexpr).

(** Calls that leave the program: the Vulkan entry points it uses, the
    helpers of VulkanTools it relies on, and its host side effects. *)
Inductive Call : Type :=
| vkEnumerateInstanceLayerProperties
| vkCreateInstance (enabledLayerCount enabledExtensionCount : Z)
| vkGetInstanceProcAddr (name : string)
| vkCreateDebugReportCallbackEXT
| vkEnumeratePhysicalDevices
| vkGetPhysicalDeviceProperties (physicalDevice : Z)
| vkGetPhysicalDeviceFeatures (physicalDevice : Z)
| vkGetPhysicalDeviceQueueFamilyProperties (physicalDevice : Z)
| vkGetPhysicalDeviceMemoryProperties (physicalDevice : Z)
| vkCreateDevice (physicalDevice queueCreateInfoCount : Z)
                 (queue_create_info : VkDeviceQueueCreateInfo)
| vkGetDeviceQueue (family index : Z)
| vkCreateCommandPool (family flags : Z)
| vkAllocateCommandBuffers (pool : Z)
| vkBeginCommandBuffer (cmd : Z)
| vkEndCommandBuffer (cmd : Z)
| vkFreeCommandBuffers (pool cmd : Z)
| vkCreateBuffer (usage size : Z)
| vkGetBufferMemoryRequirements (buffer : Z)
| vkGetImageMemoryRequirements (img : Z)
| vkAllocateMemory (allocationSize memoryTypeIndex : Z)
| vkMapMemory (mem offset size : Z)
| vkUnmapMemory (mem : Z)
| vkBindBufferMemory (buffer mem offset : Z)
| vkBindImageMemory (img mem offset : Z)
| vkDestroyBuffer (buffer : Z)
| vkFreeMemory (mem : Z)
| vkDestroyImage (img : Z)
| vkCreateImage (format w h mipLevels tiling usage initialLayout : Z)
| vkCreateImageView (img format aspect levels : Z)
| vkCreateSampler (anisotropyEnable : bool)
| vkGetImageSubresourceLayout (img : Z)
| vkGetPhysicalDeviceFormatProperties (physicalDevice format : Z)
| vkCreateFence (flags : Z)
| vkQueueSubmit (q cmd fence : Z)
| vkWaitForFences (fence : Z) (waitAll : bool) (timeout : Z)
| vkDestroyFence (fence : Z)
| vkDeviceWaitIdle
| vkQueueWaitIdle (q : Z)
| vkCreateRenderPass (colorFormat depthFormat : Z)
| vkCreateFramebuffer (renderPass colorView depthView w h : Z)
| vkCreateDescriptorSetLayout (bindingCount : Z)
| vkCreatePipelineLayout (setLayoutCount pushConstantRangeCount : Z)
| vkCreatePipelineCache
| loadShader (path : string)
| vkCreateGraphicsPipelines (layout renderPass : Z)
| vkCreateDescriptorPool (maxSets : Z)
| vkAllocateDescriptorSets (pool layout : Z)
| vkUpdateDescriptorSets (set buffer range view sampler imageLayout : Z)
| vkCmdBeginRenderPass (cmd renderPass fb w h : Z)
| vkCmdSetViewport (cmd w h : Z)
| vkCmdSetScissor (cmd w h : Z)
| vkCmdBindDescriptorSets (cmd layout set : Z)
| vkCmdBindPipeline (cmd pipe : Z)
| vkCmdBindVertexBuffers (cmd buffer offset : Z)
| vkCmdBindIndexBuffer (cmd buffer offset : Z)
| vkCmdPushConstants (cmd layout stageFlags offset size : Z) (values : mexpr)
| vkCmdDrawIndexed (cmd indexCount instanceCount firstIndex
                    vertexOffset firstInstance : Z)
| vkCmdEndRenderPass (cmd : Z)
| vkCmdCopyBuffer (cmd src dst size : Z)
| vkCmdPipelineBarrier (cmd srcStageMask dstStageMask : Z)
                       (barrier : VkImageMemoryBarrier)
| vkCmdCopyBufferToImage (cmd buffer img dstImageLayout : Z)
                         (regions : list VkBufferImageCopy)
| vkCmdCopyImage (cmd src srcLayout dst dstLayout w h : Z)
| stbi_load (filename : string)
| stbi_image_free
| memcpy (dst : Pointer) (bytes : list byte)
| ofstream_write (fname : string) (contents : list byte).

(** One entry of the log: the call, the status it returned ([VK_SUCCESS] for
    a [void] entry point) and the value it stored in its output parameter. *)
Record Event := Ev { call : Call; answer : VkResult; out : Z }.

(** Everything the program takes from outside: the driver's answers, indexed
    by the position of the call in the log, what the device does to memory
    when a submission is accepted, the properties the device reports, the
    image decoder, and the build and command-line settings.  The helpers and
    macros of VulkanTools, camera.hpp and CommandLineParser.hpp that the
    program uses without defining them ([getSupportedDepthFormat],
    [getAssetPath], [getShaderBasePath], the camera's matrices, the value of
    the [shaders] option, [DEFAULT_FENCE_TIMEOUT], [VK_FLAGS_NONE]) are fields
    as well.  [ppData_after_failure] is what a vkMapMemory that fails leaves
    in the pointer it was given the address of, from the position of the
    call and the value the pointer had: the driver may leave it alone, clear
    it or store anything else. *)
Record Env := {
  status : nat -> VkResult;
  handle : nat -> Z;
  gpu : nat -> (Z -> Memory) -> (Z -> Memory);
  physical_devices : list Z;
  queueFlags : list Z;
  memoryTypes : list Z;
  memoryRequirements : Z -> Z * Z;          (* size, memoryTypeBits *)
  subresourceLayout : Z -> Z * Z;           (* offset, rowPitch *)
  ppData_after_failure : nat -> Pointer -> Pointer;
  samplerAnisotropy : bool;
  linearTilingSampled : bool;               (* SAMPLED_IMAGE among linearTilingFeatures *)
  getSupportedDepthFormat : Z;
  instance_layer_names : list string;
  decode : string -> option (Z * Z * list byte);   (* width, height, RGBA *)
  camera_ubo : list byte;
  getAssetPath : string;
  getShaderBasePath : string;
  shaders_option : option string;
  DEBUG : bool;
  DEFAULT_FENCE_TIMEOUT : Z;
  VK_FLAGS_NONE : Z
}.

Record State := mkState {
  this : Var -> Z;
  ubo_scene : list byte;
  shader_modules : list Z;
  imagedata : Pointer;
  log : list Event;                 (* newest first *)
  memory : Z -> Memory              (* contents of each VkDeviceMemory *)
}.

Definition with_this (f : Var -> Z) (s : State) : State :=
  mkState f (ubo_scene s) (shader_modules s) (imagedata s) (log s) (memory s).
Definition with_ubo_scene (u : list byte) (s : State) : State :=
  mkState (this s) u (shader_modules s) (imagedata s) (log s) (memory s).
Definition with_shader_modules (l : list Z) (s : State) : State :=
  mkState (this s) (ubo_scene s) l (imagedata s) (log s) (memory s).
Definition with_imagedata (p : Pointer) (s : State) : State :=
  mkState (this s) (ubo_scene s) (shader_modules s) p (log s) (memory s).
Definition with_log (l : list Event) (s : State) : State :=
  mkState (this s) (ubo_scene s) (shader_modules s) (imagedata s) l (memory s).
Definition with_memory (m : Z -> Memory) (s : State) : State :=
  mkState (this s) (ubo_scene s) (shader_modules s) (imagedata s) (log s) m.

Definition upd (v : Var) (x : Z) (f : Var -> Z) : Var -> Z :=
  fun v' => if Var_eq_dec v v' then x else f v'.

(** [memcpy] into mapped memory. *)
Definition store_bytes (p : Pointer) (bytes : list byte) (m : Z -> Memory)
  : Z -> Memory :=
  fun blk off =>
    if (blk =? fst p) && (snd p <=? off)
       && (off <? snd p + Z.of_nat (List.length bytes))
    then nth (Z.to_nat (off - snd p)) bytes (m blk off)
    else m blk off.

(** [n] bytes of a [VkDeviceMemory], from offset 0. *)
Definition load_bytes (m : Z -> Memory) (blk : Z) (n : nat) : list byte :=
  map (fun i => m blk (Z.of_nat i)) (seq 0 n).

Definition byte_of_Z (z : Z) : byte :=
  match Byte.of_N (Z.to_N (z mod 256)) with
  | Some b => b
  | None => x00
  end.

(** The eight bytes of a 64-bit handle, least significant first. *)
Definition handle_bytes (h : Z) : list byte :=
  map (fun i => byte_of_Z (Z.shiftr h (8 * Z.of_nat i))) (seq 0 8).

(** [sizeof(UniformBufferObject)]: two [mat4], a [vec4] and a [float]. *)
Definition sizeof_UniformBufferObject : Z := 64 + 64 + 16 + 4.
Definition sizeof_mat4 : Z := 64.
Definition sizeof_SimpleVertex : Z := 24.
Definition sizeof_TextureVertex : Z := 20.
Definition sizeof_uint32_t : Z := 4.

(** The bytes found at [&v].  [uniform_buffer_modelview] is followed in the
    class by [uniform_buffer_memory] and [ubo_scene]; for the other members
    only the member itself is given. *)
Definition object_bytes (s : State) (v : Var) : list byte :=
  match v with
  | uniform_buffer_modelview =>
      handle_bytes (this s uniform_buffer_modelview)
      ++ handle_bytes (this s uniform_buffer_memory)
      ++ ubo_scene s
  | _ => handle_bytes (this s v)
  end.

(** What [memcpy(_, data, size)] reads. *)
Definition host_read (s : State) (data : HostPtr) (size : Z) : list byte :=
  match data with
  | nullptr => []
  | array_data contents => firstn (Z.to_nat size) contents
  | address_of v => firstn (Z.to_nat size) (object_bytes s v)
  end.

(** How a run of the program can stop short of returning. *)
Inductive Stop : Type :=
| Fatal (res : VkResult)     (* VK_CHECK_RESULT met a status other than success *)
| Thrown (what : string)     (* std::runtime_error, caught nowhere *)
| Aborted                    (* assert *)
| Undefined.                 (* no defined behaviour *)

Inductive Outcome (A : Type) : Type :=
| Returned (a : A)
| Stopped (why : Stop).
Arguments Returned {A} a.
Arguments Stopped {A} why.

Definition M (A : Type) : Type := State -> Outcome A * State.

Definition ret {A} (a : A) : M A := fun s => (Returned a, s).

Definition bind {A B} (m : M A) (f : A -> M B) : M B :=
  fun s =>
    match m s with
    | (Returned a, s') => f a s'
    | (Stopped why, s') => (Stopped why, s')
    end.

Declare Scope prog_scope.
Delimit Scope prog_scope with prog.
Notation "x <- m ;; k" := (bind m (fun x => k))
  (at level 61, m at next level, right associativity) : prog_scope.
Notation "m ;; k" := (bind m (fun _ => k))
  (at level 61, right associativity) : prog_scope.
Open Scope prog_scope.

Definition stop {A} (why : Stop) : M A := fun s => (Stopped why, s).
Definition get (v : Var) : M Z := fun s => (Returned (this s v), s).
Definition set (v : Var) (x : Z) : M unit :=
  fun s => (Returned tt, with_this (upd v x (this s)) s).
Definition get_state : M State := fun s => (Returned s, s).
Definition modify (f : State -> State) : M unit := fun s => (Returned tt, f s).

(** Modelled from the spec: the macro VK_CHECK_RESULT of VulkanTools.h, which
    is not among the sources.  A call that returns a status other than success
    terminates the process (section 7, fatal device/API errors). *)
Definition VK_CHECK_RESULT (f : M VkResult) : M unit :=
  res <- f ;;
  if res =? VK_SUCCESS then ret tt else stop (Fatal res).

Definition commands_only (c : Call) : bool :=
  match c with
  | vkCmdBeginRenderPass _ _ _ _ _ | vkCmdSetViewport _ _ _
  | vkCmdSetScissor _ _ _ | vkCmdBindDescriptorSets _ _ _
  | vkCmdBindPipeline _ _ | vkCmdBindVertexBuffers _ _ _
  | vkCmdBindIndexBuffer _ _ _ | vkCmdPushConstants _ _ _ _ _ _
  | vkCmdDrawIndexed _ _ _ _ _ _ | vkCmdEndRenderPass _
  | vkCmdCopyBuffer _ _ _ _ | vkCmdPipelineBarrier _ _ _ _
  | vkCmdCopyBufferToImage _ _ _ _ _ | vkCmdCopyImage _ _ _ _ _ _ _ => true
  | _ => false
  end.

(** The [vkCmd*] calls among [events] (newest first), oldest first. *)
Definition recorded (events : list Event) : list Call :=
  filter commands_only (map call (rev events)).

(* ================================================================== *)
(** ** The program *)
(* ================================================================== *)

Section Program.

Variable env : Env.

(** An entry point that returns a [VkResult] and stores a handle through its
    output parameter, if it has one. *)
Definition api_out (c : Call) : M (VkResult * Z) :=
  fun s =>
    let n := List.length (log s) in
    (Returned (status env n, handle env n),
     with_log (Ev c (status env n) (handle env n) :: log s) s).

(** An entry point that returns a [VkResult] and has no output parameter. *)
Definition api (c : Call) : M VkResult :=
  fun s =>
    let n := List.length (log s) in
    (Returned (status env n), with_log (Ev c (status env n) 0 :: log s) s).

(** [f(..., &v)]: the handle lands in [v]. *)
Definition api_into (v : Var) (c : Call) : M VkResult :=
  rh <- api_out c ;; set v (snd rh) ;; ret (fst rh).

(** [VK_CHECK_RESULT(f(..., &local))]: the checked call, then the local. *)
Definition checked_local (c : Call) : M Z :=
  rh <- api_out c ;; VK_CHECK_RESULT (ret (fst rh)) ;; ret (snd rh).

(** A [void] entry point, with the value it stores in its output parameter. *)
Definition void_out (c : Call) : M Z :=
  fun s =>
    let n := List.length (log s) in
    (Returned (handle env n), with_log (Ev c VK_SUCCESS (handle env n) :: log s) s).

Definition void (c : Call) : M unit :=
  fun s => (Returned tt, with_log (Ev c VK_SUCCESS 0 :: log s) s).

(** [vkQueueSubmit]: when the driver accepts the submission the device runs
    the command buffer, which may rewrite device memory. *)
Definition queue_submit (q cmd fence : Z) : M VkResult :=
  fun s =>
    let n := List.length (log s) in
    let r := status env n in
    (Returned r,
     with_memory (if r =? VK_SUCCESS then gpu env n (memory s) else memory s)
       (with_log (Ev (vkQueueSubmit q cmd fence) r 0 :: log s) s)).

Definition do_memcpy (dst : Pointer) (bytes : list byte) : M unit :=
  fun s =>
    (Returned tt,
     with_memory (store_bytes dst bytes (memory s))
       (with_log (Ev (memcpy dst bytes) VK_SUCCESS 0 :: log s) s)).

Definition for_each {A} (l : list A) (body : A -> M unit) : M unit :=
  fold_right (fun a k => body a ;; k) (ret tt) l.

(** *** Submission *)

(** [vks::initializers::fenceCreateInfo()] is called without argument in
    submitWork: no flags. *)

Definition submitWork (cmd_buffer q : Z) : M unit :=
  fence <- checked_local (vkCreateFence 0) ;;
  VK_CHECK_RESULT (queue_submit q cmd_buffer fence) ;;
  VK_CHECK_RESULT (api (vkWaitForFences fence true UINT64_MAX)) ;;
  void (vkDestroyFence fence).

Definition flushCommandBuffer (cmd q pool : Z) (free : bool) : M unit :=
  if cmd =? VK_NULL_HANDLE then ret tt
  else
    VK_CHECK_RESULT (api (vkEndCommandBuffer cmd)) ;;
    fence <- checked_local (vkCreateFence (VK_FLAGS_NONE env)) ;;
    VK_CHECK_RESULT (queue_submit q cmd fence) ;;
    VK_CHECK_RESULT
      (api (vkWaitForFences fence true (DEFAULT_FENCE_TIMEOUT env mod 2 ^ 64))) ;;
    void (vkDestroyFence fence) ;;
    if free then void (vkFreeCommandBuffers pool cmd) else ret tt.

(** [createCommandBuffer(level, pool, begin)], the three-argument overload. *)
Definition createCommandBuffer_in_pool (pool : Z) (begin : bool) : M Z :=
  cmd_buffer <- checked_local (vkAllocateCommandBuffers pool) ;;
  (if begin then VK_CHECK_RESULT (api (vkBeginCommandBuffer cmd_buffer))
   else ret tt) ;;
  ret cmd_buffer.

(** *** Memory *)

Definition call_getMemoryTypeIndex (type_bits properties : Z) : M Z :=
  pd <- get physical_device ;;
  void (vkGetPhysicalDeviceMemoryProperties pd) ;;
  ret (getMemoryTypeIndex (memoryTypes env) type_bits properties).

Definition is_null (p : HostPtr) : bool :=
  match p with nullptr => true | _ => false end.

(** [buffer] and [mem] are the variables the two output pointers point to;
    [data] may point to one of them. *)
Definition createBuffer (usage_flags memory_property_flags : Z)
                        (buffer mem : Var) (size : Z) (data : HostPtr)
  : M VkResult :=
  VK_CHECK_RESULT (api_into buffer (vkCreateBuffer usage_flags size)) ;;
  b <- get buffer ;;
  void (vkGetBufferMemoryRequirements b) ;;
  memory_type_index <-
    call_getMemoryTypeIndex (snd (memoryRequirements env b)) memory_property_flags ;;
  VK_CHECK_RESULT
    (api_into mem (vkAllocateMemory (fst (memoryRequirements env b))
                                    memory_type_index)) ;;
  (if is_null data then ret tt
   else
     m <- get mem ;;
     VK_CHECK_RESULT (api (vkMapMemory m 0 size)) ;;
     s <- get_state ;;
     do_memcpy (m, 0) (host_read s data size) ;;
     m' <- get mem ;;
     void (vkUnmapMemory m')) ;;
  b' <- get buffer ;;
  m <- get mem ;;
  VK_CHECK_RESULT (api (vkBindBufferMemory b' m 0)) ;;
  ret VK_SUCCESS.

(** *** Device bootstrap *)

Definition validation_layer : string := "VK_LAYER_KHRONOS_validation".

Definition createInstance : M unit :=
  (if DEBUG env then
     api vkEnumerateInstanceLayerProperties ;;
     api vkEnumerateInstanceLayerProperties ;;
     set layers_available
         (if existsb (String.eqb validation_layer) (instance_layer_names env)
          then 1 else 0)
   else ret tt) ;;
  available <- get layers_available ;;
  let enabled := DEBUG env && negb (available =? 0) in
  VK_CHECK_RESULT
    (api_into instance (vkCreateInstance (if enabled then 1 else 0)
                                         (if enabled then 1 else 0))).

Definition setupDebugMessenger : M unit :=
  available <- get layers_available ;;
  if DEBUG env && negb (available =? 0) then
    pfn <- void_out (vkGetInstanceProcAddr "vkCreateDebugReportCallbackEXT") ;;
    (if pfn =? 0 then stop Aborted else ret tt) ;;
    VK_CHECK_RESULT (api_into debug_report_callback vkCreateDebugReportCallbackEXT)
  else ret tt.

Definition pickPhysicalDevice : M unit :=
  VK_CHECK_RESULT (api vkEnumeratePhysicalDevices) ;;
  VK_CHECK_RESULT (api vkEnumeratePhysicalDevices) ;;
  match physical_devices env with
  | [] => stop Undefined            (* [physical_devices[0]] of an empty vector *)
  | first :: _ =>
      set physical_device first ;;
      void (vkGetPhysicalDeviceProperties first) ;;
      void (vkGetPhysicalDeviceFeatures first)
  end.

(** The queue family loop: the first family whose flags have the graphics
    bit. *)
Fixpoint find_graphics_family (i : Z) (families : list Z) : option Z :=
  match families with
  | [] => None
  | flags :: rest =>
      if negb (Z.land flags VK_QUEUE_GRAPHICS_BIT =? 0) then Some i
      else find_graphics_family (i + 1) rest
  end.

Definition createLogicalDevice : M unit :=
  pd <- get physical_device ;;
  void (vkGetPhysicalDeviceQueueFamilyProperties pd) ;;
  void (vkGetPhysicalDeviceQueueFamilyProperties pd) ;;
  queue_create_info <-
    match find_graphics_family 0 (queueFlags env) with
    | Some i =>
        set queue_family_index i ;;
        ret {| sType := VK_STRUCTURE_TYPE_DEVICE_QUEUE_CREATE_INFO;
               queueFamilyIndex := i; queueCount := 1 |}
    | None => ret {| sType := 0; queueFamilyIndex := 0; queueCount := 0 |}
    end ;;
  VK_CHECK_RESULT (api_into device (vkCreateDevice pd 1 queue_create_info)) ;;
  family <- get queue_family_index ;;
  q <- void_out (vkGetDeviceQueue family 0) ;;
  set queue q.

Definition createCommandPool : M unit :=
  family <- get queue_family_index ;;
  VK_CHECK_RESULT
    (api_into command_pool
       (vkCreateCommandPool family VK_COMMAND_POOL_CREATE_RESET_COMMAND_BUFFER_BIT)).

(** *** Geometry upload *)

Definition u32_bytes (n : Z) : list byte :=
  map (fun i => byte_of_Z (Z.shiftr n (8 * Z.of_nat i))) (seq 0 4).

(** Bit patterns of the [float] literals in the vertex data. *)
Definition f32_0 : list byte := u32_bytes 0.                   (*  0.0f *)
Definition f32_1 : list byte := u32_bytes 1065353216.          (*  1.0f *)
Definition f32_m1 : list byte := u32_bytes 3212836864.         (* -1.0f *)
Definition f32_half : list byte := u32_bytes 1056964608.       (*  0.5f *)

Definition simple_vertices : list byte :=
  (f32_1 ++ f32_1 ++ f32_0) ++ (f32_1 ++ f32_0 ++ f32_0)
  ++ (f32_m1 ++ f32_1 ++ f32_0) ++ (f32_0 ++ f32_1 ++ f32_0)
  ++ (f32_0 ++ f32_m1 ++ f32_0) ++ (f32_0 ++ f32_0 ++ f32_1).

(** [TextureVertex] holds a position and a uv pair. *)
Definition texture_vertices : list byte :=
  (f32_1 ++ f32_1 ++ f32_0) ++ (f32_1 ++ f32_1)
  ++ (f32_m1 ++ f32_1 ++ f32_0) ++ (f32_0 ++ f32_1)
  ++ (f32_m1 ++ f32_m1 ++ f32_0) ++ (f32_half ++ f32_0).

Definition triangle_indices : list byte :=
  u32_bytes 0 ++ u32_bytes 1 ++ u32_bytes 2.

Definition host_visible_coherent : Z :=
  Z.lor VK_MEMORY_PROPERTY_HOST_VISIBLE_BIT VK_MEMORY_PROPERTY_HOST_COHERENT_BIT.

(** The block both upload functions repeat for the vertices and for the
    indices: staging buffer, destination buffer, copy, submit, release of the
    staging pair. *)
Definition staged_upload (copy_cmd : Z) (usage : Z) (buffer mem : Var)
                         (size : Z) (data : list byte) : M unit :=
  createBuffer VK_BUFFER_USAGE_TRANSFER_SRC_BIT host_visible_coherent
               staging_buffer staging_memory size (array_data data) ;;
  createBuffer (Z.lor usage VK_BUFFER_USAGE_TRANSFER_DST_BIT)
               VK_MEMORY_PROPERTY_DEVICE_LOCAL_BIT buffer mem size nullptr ;;
  VK_CHECK_RESULT (api (vkBeginCommandBuffer copy_cmd)) ;;
  src <- get staging_buffer ;;
  dst <- get buffer ;;
  void (vkCmdCopyBuffer copy_cmd src dst size) ;;
  VK_CHECK_RESULT (api (vkEndCommandBuffer copy_cmd)) ;;
  q <- get queue ;;
  submitWork copy_cmd q ;;
  sb <- get staging_buffer ;;
  void (vkDestroyBuffer sb) ;;
  sm <- get staging_memory ;;
  void (vkFreeMemory sm).

Definition prepareSimpleVertexAndIndexBuffers : M unit :=
  let vertex_buffer_size := 3 * sizeof_SimpleVertex in
  let index_buffer_size := 3 * sizeof_uint32_t in
  pool <- get command_pool ;;
  copy_cmd <- checked_local (vkAllocateCommandBuffers pool) ;;
  staged_upload copy_cmd VK_BUFFER_USAGE_VERTEX_BUFFER_BIT
                vertex_buffer vertex_memory vertex_buffer_size simple_vertices ;;
  staged_upload copy_cmd VK_BUFFER_USAGE_INDEX_BUFFER_BIT
                index_buffer index_memory index_buffer_size triangle_indices.

Definition prepareTextureVertexAndIndexBuffers : M unit :=
  let vertex_buffer_size := 3 * sizeof_TextureVertex in
  let index_buffer_size := 3 * sizeof_uint32_t in
  set index_buffer_count 3 ;;
  pool <- get command_pool ;;
  copy_cmd <- checked_local (vkAllocateCommandBuffers pool) ;;
  staged_upload copy_cmd VK_BUFFER_USAGE_VERTEX_BUFFER_BIT
                vertex_buffer vertex_memory vertex_buffer_size texture_vertices ;;
  staged_upload copy_cmd VK_BUFFER_USAGE_INDEX_BUFFER_BIT
                index_buffer index_memory index_buffer_size triangle_indices.

(** *** Texture *)

Definition VK_IMAGE_ASPECT_COLOR_BIT := 1.
Definition VK_IMAGE_ASPECT_DEPTH_BIT := 2.
Definition VK_IMAGE_ASPECT_STENCIL_BIT := 4.

(** [decode] stands for [stbi_load]: [None] when it returns a null pointer.
    The first [image_size] of the source is computed before the null test
    and used nowhere; the staging branch computes its own. *)
Definition loadTextureFromFile (fname : string) : M unit :=
  let texture_filename := (getAssetPath env ++ fname)%string in
  void (stbi_load texture_filename) ;;
  match decode env texture_filename with
  | None => stop (Thrown "failed to load texture image!")
  | Some (tex_width, tex_height, pixels) =>
      let format := VK_FORMAT_R8G8B8A8_UNORM in
      set texture_width tex_width ;;
      set texture_height tex_height ;;
      set texture_mipLevels 1 ;;
      let force_linear_tiling := false in
      use_staging <-
        (if force_linear_tiling then
           pd <- get physical_device ;;
           void (vkGetPhysicalDeviceFormatProperties pd format) ;;
           ret (negb (linearTilingSampled env))
         else ret true) ;;
      (if use_staging : bool then
         let image_size := tex_width * tex_height * 4 in
         sbuf <- checked_local (vkCreateBuffer VK_BUFFER_USAGE_TRANSFER_SRC_BIT
                                               image_size) ;;
         void (vkGetBufferMemoryRequirements sbuf) ;;
         index1 <- call_getMemoryTypeIndex (snd (memoryRequirements env sbuf))
                                           host_visible_coherent ;;
         smem <- checked_local
                   (vkAllocateMemory (fst (memoryRequirements env sbuf)) index1) ;;
         VK_CHECK_RESULT (api (vkBindBufferMemory sbuf smem 0)) ;;
         VK_CHECK_RESULT
           (api (vkMapMemory smem 0 (fst (memoryRequirements env sbuf)))) ;;
         do_memcpy (smem, 0) (firstn (Z.to_nat image_size) pixels) ;;
         void (vkUnmapMemory smem) ;;
         let buffer_copy_regions :=
           [ {| bufferOffset := 0; mipLevel := 0; region_baseArrayLayer := 0;
                region_layerCount := 1;
                imageExtent := (tex_width, tex_height, 1) |} ] in
         mips <- get texture_mipLevels ;;
         tw <- get texture_width ;;
         th <- get texture_height ;;
         VK_CHECK_RESULT
           (api_into texture_image
              (vkCreateImage format tw th mips VK_IMAGE_TILING_OPTIMAL
                 (Z.lor VK_IMAGE_USAGE_TRANSFER_DST_BIT VK_IMAGE_USAGE_SAMPLED_BIT)
                 VK_IMAGE_LAYOUT_UNDEFINED)) ;;
         img <- get texture_image ;;
         void (vkGetImageMemoryRequirements img) ;;
         index2 <- call_getMemoryTypeIndex (snd (memoryRequirements env img))
                                           VK_MEMORY_PROPERTY_DEVICE_LOCAL_BIT ;;
         VK_CHECK_RESULT
           (api_into texture_deviceMemory
              (vkAllocateMemory (fst (memoryRequirements env img)) index2)) ;;
         tmem <- get texture_deviceMemory ;;
         VK_CHECK_RESULT (api (vkBindImageMemory img tmem 0)) ;;
         pool <- get command_pool ;;
         copy_cmd <- createCommandBuffer_in_pool pool true ;;
         let subresource_range :=
           {| aspectMask := VK_IMAGE_ASPECT_COLOR_BIT; baseMipLevel := 0;
              levelCount := mips; baseArrayLayer := 0; layerCount := 1 |} in
         void (vkCmdPipelineBarrier copy_cmd
                 VK_PIPELINE_STAGE_HOST_BIT VK_PIPELINE_STAGE_TRANSFER_BIT
                 {| srcAccessMask := 0;
                    dstAccessMask := VK_ACCESS_TRANSFER_WRITE_BIT;
                    oldLayout := VK_IMAGE_LAYOUT_UNDEFINED;
                    newLayout := VK_IMAGE_LAYOUT_TRANSFER_DST_OPTIMAL;
                    image := img; subresourceRange := subresource_range |}) ;;
         void (vkCmdCopyBufferToImage copy_cmd sbuf img
                 VK_IMAGE_LAYOUT_TRANSFER_DST_OPTIMAL buffer_copy_regions) ;;
         void (vkCmdPipelineBarrier copy_cmd
                 VK_PIPELINE_STAGE_TRANSFER_BIT VK_PIPELINE_STAGE_FRAGMENT_SHADER_BIT
                 {| srcAccessMask := VK_ACCESS_TRANSFER_WRITE_BIT;
                    dstAccessMask := VK_ACCESS_SHADER_READ_BIT;
                    oldLayout := VK_IMAGE_LAYOUT_TRANSFER_DST_OPTIMAL;
                    newLayout := VK_IMAGE_LAYOUT_SHADER_READ_ONLY_OPTIMAL;
                    image := img; subresourceRange := subresource_range |}) ;;
         set texture_imageLayout VK_IMAGE_LAYOUT_SHADER_READ_ONLY_OPTIMAL ;;
         q <- get queue ;;
         flushCommandBuffer copy_cmd q pool true ;;
         void (vkFreeMemory smem) ;;
         void (vkDestroyBuffer sbuf)
       else ret tt) ;;
      void stbi_image_free ;;
      VK_CHECK_RESULT
        (api_into texture_sampler (vkCreateSampler (samplerAnisotropy env))) ;;
      mips <- get texture_mipLevels ;;
      img <- get texture_image ;;
      VK_CHECK_RESULT
        (api_into texture_view
           (vkCreateImageView img format VK_IMAGE_ASPECT_COLOR_BIT
                              (if use_staging then mips else 1)))
  end.

(** *** Render target and pipelines *)

Definition createFramebufferAttachments : M unit :=
  set color_format VK_FORMAT_R8G8B8A8_UNORM ;;
  fmt <- get color_format ;;
  w <- get width ;;
  h <- get height ;;
  VK_CHECK_RESULT
    (api_into color_attachment_image
       (vkCreateImage fmt w h 1 VK_IMAGE_TILING_OPTIMAL
          (Z.lor VK_IMAGE_USAGE_COLOR_ATTACHMENT_BIT VK_IMAGE_USAGE_TRANSFER_SRC_BIT)
          VK_IMAGE_LAYOUT_UNDEFINED)) ;;
  cimg <- get color_attachment_image ;;
  void (vkGetImageMemoryRequirements cimg) ;;
  index1 <- call_getMemoryTypeIndex (snd (memoryRequirements env cimg))
                                    VK_MEMORY_PROPERTY_DEVICE_LOCAL_BIT ;;
  VK_CHECK_RESULT
    (api_into color_attachment_memory
       (vkAllocateMemory (fst (memoryRequirements env cimg)) index1)) ;;
  cmem <- get color_attachment_memory ;;
  VK_CHECK_RESULT (api (vkBindImageMemory cimg cmem 0)) ;;
  VK_CHECK_RESULT
    (api_into color_attachment_view
       (vkCreateImageView cimg fmt VK_IMAGE_ASPECT_COLOR_BIT 1)) ;;
  set depth_format (getSupportedDepthFormat env) ;;
  dfmt <- get depth_format ;;
  VK_CHECK_RESULT
    (api_into depth_attachment_image
       (vkCreateImage dfmt w h 1 VK_IMAGE_TILING_OPTIMAL
          VK_IMAGE_USAGE_DEPTH_STENCIL_ATTACHMENT_BIT VK_IMAGE_LAYOUT_UNDEFINED)) ;;
  dimg <- get depth_attachment_image ;;
  void (vkGetImageMemoryRequirements dimg) ;;
  index2 <- call_getMemoryTypeIndex (snd (memoryRequirements env dimg))
                                    VK_MEMORY_PROPERTY_DEVICE_LOCAL_BIT ;;
  VK_CHECK_RESULT
    (api_into depth_attachment_memory
       (vkAllocateMemory (fst (memoryRequirements env dimg)) index2)) ;;
  dmem <- get depth_attachment_memory ;;
  VK_CHECK_RESULT (api (vkBindImageMemory dimg dmem 0)) ;;
  let aspect :=
    if VK_FORMAT_D16_UNORM_S8_UINT <=? dfmt
    then Z.lor VK_IMAGE_ASPECT_DEPTH_BIT VK_IMAGE_ASPECT_STENCIL_BIT
    else VK_IMAGE_ASPECT_DEPTH_BIT in
  VK_CHECK_RESULT
    (api_into depth_attachment_view (vkCreateImageView dimg dfmt aspect 1)).

Definition createRenderPass : M unit :=
  cfmt <- get color_format ;;
  dfmt <- get depth_format ;;
  VK_CHECK_RESULT (api_into render_pass (vkCreateRenderPass cfmt dfmt)) ;;
  rp <- get render_pass ;;
  cview <- get color_attachment_view ;;
  dview <- get depth_attachment_view ;;
  w <- get width ;;
  h <- get height ;;
  VK_CHECK_RESULT
    (api_into framebuffer (vkCreateFramebuffer rp cview dview w h)).

Definition shader_dir : string :=
  match shaders_option env with
  | Some name => name
  | None => "glsl"
  end.

Definition prepareGraphicsPipelineSimple : M unit :=
  VK_CHECK_RESULT (api_into descriptor_set_layout (vkCreateDescriptorSetLayout 0)) ;;
  VK_CHECK_RESULT (api_into pipeline_layout (vkCreatePipelineLayout 0 1)) ;;
  VK_CHECK_RESULT (api_into pipeline_cache vkCreatePipelineCache) ;;
  let shaders_path :=
    (getShaderBasePath env ++ shader_dir ++ "/renderheadless/")%string in
  vert <- void_out (loadShader (shaders_path ++ "triangle.vert.spv")%string) ;;
  frag <- void_out (loadShader (shaders_path ++ "triangle.frag.spv")%string) ;;
  modify (with_shader_modules [vert; frag]) ;;
  layout <- get pipeline_layout ;;
  rp <- get render_pass ;;
  VK_CHECK_RESULT (api_into pipeline (vkCreateGraphicsPipelines layout rp)).

Definition prepareGraphicsPipelineTexture : M unit :=
  VK_CHECK_RESULT
    (createBuffer VK_BUFFER_USAGE_UNIFORM_BUFFER_BIT host_visible_coherent
                  uniform_buffer_modelview uniform_buffer_memory
                  sizeof_UniformBufferObject
                  (address_of uniform_buffer_modelview)) ;;
  VK_CHECK_RESULT (api_into descriptor_set_layout (vkCreateDescriptorSetLayout 2)) ;;
  VK_CHECK_RESULT (api_into pipeline_layout (vkCreatePipelineLayout 1 0)) ;;
  VK_CHECK_RESULT (api_into pipeline_cache vkCreatePipelineCache) ;;
  let shaders_path := (getShaderBasePath env ++ shader_dir ++ "/texture/")%string in
  vert <- void_out (loadShader (shaders_path ++ "texture_basic.vert.spv")%string) ;;
  frag <- void_out (loadShader (shaders_path ++ "texture_basic.frag.spv")%string) ;;
  modify (with_shader_modules [vert; frag]) ;;
  layout <- get pipeline_layout ;;
  rp <- get render_pass ;;
  VK_CHECK_RESULT (api_into pipeline (vkCreateGraphicsPipelines layout rp)) ;;
  VK_CHECK_RESULT (api_into descriptor_pool (vkCreateDescriptorPool 2)) ;;
  pool <- get descriptor_pool ;;
  set_layout <- get descriptor_set_layout ;;
  VK_CHECK_RESULT
    (api_into descriptor_set (vkAllocateDescriptorSets pool set_layout)) ;;
  dset <- get descriptor_set ;;
  ubuf <- get uniform_buffer_modelview ;;
  tview <- get texture_view ;;
  tsampler <- get texture_sampler ;;
  tlayout <- get texture_imageLayout ;;
  void (vkUpdateDescriptorSets dset ubuf sizeof_UniformBufferObject
                               tview tsampler tlayout).

(** *** Recording and submitting the frame *)

(** The opening both recording functions share: render pass, viewport and
    scissor over the full extent. *)
Definition begin_frame (cmd : Z) : M unit :=
  rp <- get render_pass ;;
  fb <- get framebuffer ;;
  w <- get width ;;
  h <- get height ;;
  void (vkCmdBeginRenderPass cmd rp fb w h) ;;
  void (vkCmdSetViewport cmd w h) ;;
  void (vkCmdSetScissor cmd w h).

Definition pos : list (fexpr * fexpr * fexpr) :=
  [ (f_lit (-3) 2, f_lit 0 1, f_lit (-4) 1);
    (f_lit 0 1,    f_lit 0 1, f_lit (-5) 2);
    (f_lit 3 2,    f_lit 0 1, f_lit (-4) 1) ].

Definition mvpMatrix (w h : Z) (v : fexpr * fexpr * fexpr) : mexpr :=
  mat_mul
    (glm_perspective (glm_radians (f_lit 60 1))
                     (f_div (f_of_int w) (f_of_int h))
                     (f_lit 1 10) (f_lit 256 1))
    (glm_translate mat4_1 (fst (fst v)) (snd (fst v)) (snd v)).

(** [createCommandBuffer()], the overload without arguments. *)
Definition createCommandBuffer : M unit :=
  pool <- get command_pool ;;
  cmd <- checked_local (vkAllocateCommandBuffers pool) ;;
  VK_CHECK_RESULT (api (vkBeginCommandBuffer cmd)) ;;
  begin_frame cmd ;;
  pipe <- get pipeline ;;
  void (vkCmdBindPipeline cmd pipe) ;;
  vb <- get vertex_buffer ;;
  void (vkCmdBindVertexBuffers cmd vb 0) ;;
  ib <- get index_buffer ;;
  void (vkCmdBindIndexBuffer cmd ib 0) ;;
  w <- get width ;;
  h <- get height ;;
  layout <- get pipeline_layout ;;
  for_each pos (fun v =>
    void (vkCmdPushConstants cmd layout VK_SHADER_STAGE_VERTEX_BIT 0 sizeof_mat4
                             (mvpMatrix w h v)) ;;
    void (vkCmdDrawIndexed cmd 3 1 0 0 0)) ;;
  void (vkCmdEndRenderPass cmd) ;;
  VK_CHECK_RESULT (api (vkEndCommandBuffer cmd)) ;;
  q <- get queue ;;
  submitWork cmd q ;;
  void vkDeviceWaitIdle.

Definition createCommandBufferTexture : M unit :=
  pool <- get command_pool ;;
  cmd <- checked_local (vkAllocateCommandBuffers pool) ;;
  VK_CHECK_RESULT (api (vkBeginCommandBuffer cmd)) ;;
  begin_frame cmd ;;
  layout <- get pipeline_layout ;;
  dset <- get descriptor_set ;;
  void (vkCmdBindDescriptorSets cmd layout dset) ;;
  pipe <- get pipeline ;;
  void (vkCmdBindPipeline cmd pipe) ;;
  vb <- get vertex_buffer ;;
  void (vkCmdBindVertexBuffers cmd vb 0) ;;
  ib <- get index_buffer ;;
  void (vkCmdBindIndexBuffer cmd ib 0) ;;
  count <- get index_buffer_count ;;
  void (vkCmdDrawIndexed cmd count 1 0 0 0) ;;
  void (vkCmdEndRenderPass cmd) ;;
  VK_CHECK_RESULT (api (vkEndCommandBuffer cmd)) ;;
  q <- get queue ;;
  submitWork cmd q ;;
  void vkDeviceWaitIdle.

(** *** Readback *)

(** Modelled from the spec: vks::tools::insertImageMemoryBarrier of
    VulkanTools, which is not among the sources.  It emits exactly one
    pipeline barrier with the parameters it is given (section 4.3). *)
Definition insertImageMemoryBarrier (cmd img srcAccess dstAccess old new
                                     srcStage dstStage : Z)
                                    (range : VkImageSubresourceRange) : M unit :=
  void (vkCmdPipelineBarrier cmd srcStage dstStage
          {| srcAccessMask := srcAccess; dstAccessMask := dstAccess;
             oldLayout := old; newLayout := new;
             image := img; subresourceRange := range |}).

Definition VK_WHOLE_SIZE : Z := 2 ^ 64 - 1.

Definition saveFramebufferImage (fname : string) : M unit :=
  w <- get width ;;
  h <- get height ;;
  dst_image <- checked_local
    (vkCreateImage VK_FORMAT_R8G8B8A8_UNORM w h 1 VK_IMAGE_TILING_LINEAR
                   VK_IMAGE_USAGE_TRANSFER_DST_BIT VK_IMAGE_LAYOUT_UNDEFINED) ;;
  void (vkGetImageMemoryRequirements dst_image) ;;
  memory_type_index <-
    call_getMemoryTypeIndex (snd (memoryRequirements env dst_image))
                            host_visible_coherent ;;
  dst_image_memory <- checked_local
    (vkAllocateMemory (fst (memoryRequirements env dst_image)) memory_type_index) ;;
  VK_CHECK_RESULT (api (vkBindImageMemory dst_image dst_image_memory 0)) ;;
  pool <- get command_pool ;;
  copy_cmd <- checked_local (vkAllocateCommandBuffers pool) ;;
  VK_CHECK_RESULT (api (vkBeginCommandBuffer copy_cmd)) ;;
  let range := {| aspectMask := VK_IMAGE_ASPECT_COLOR_BIT; baseMipLevel := 0;
                  levelCount := 1; baseArrayLayer := 0; layerCount := 1 |} in
  insertImageMemoryBarrier copy_cmd dst_image 0 VK_ACCESS_TRANSFER_WRITE_BIT
    VK_IMAGE_LAYOUT_UNDEFINED VK_IMAGE_LAYOUT_TRANSFER_DST_OPTIMAL
    VK_PIPELINE_STAGE_TRANSFER_BIT VK_PIPELINE_STAGE_TRANSFER_BIT range ;;
  cimg <- get color_attachment_image ;;
  void (vkCmdCopyImage copy_cmd cimg VK_IMAGE_LAYOUT_TRANSFER_SRC_OPTIMAL
                       dst_image VK_IMAGE_LAYOUT_TRANSFER_DST_OPTIMAL w h) ;;
  insertImageMemoryBarrier copy_cmd dst_image VK_ACCESS_TRANSFER_WRITE_BIT
    VK_ACCESS_MEMORY_READ_BIT
    VK_IMAGE_LAYOUT_TRANSFER_DST_OPTIMAL VK_IMAGE_LAYOUT_GENERAL
    VK_PIPELINE_STAGE_TRANSFER_BIT VK_PIPELINE_STAGE_TRANSFER_BIT range ;;
  VK_CHECK_RESULT (api (vkEndCommandBuffer copy_cmd)) ;;
  q <- get queue ;;
  submitWork copy_cmd q ;;
  void (vkGetImageSubresourceLayout dst_image) ;;
  let offset := fst (subresourceLayout env dst_image) in
  let rowPitch := snd (subresourceLayout env dst_image) in
  before <- get_state ;;
  mapped <- api (vkMapMemory dst_image_memory 0 VK_WHOLE_SIZE) ;;
  (if mapped =? VK_SUCCESS
   then modify (with_imagedata (dst_image_memory, 0))
   else modify (fun s => with_imagedata
                  (ppData_after_failure env (List.length (log before))
                                        (imagedata s)) s)) ;;
  modify (fun s => with_imagedata (fst (imagedata s), snd (imagedata s) + offset) s) ;;
  s <- get_state ;;
  void (ofstream_write fname
          (ppm_file (memory s (fst (imagedata s))) color_swizzle w h rowPitch
                    (snd (imagedata s)))) ;;
  modify (fun s => with_imagedata
            (fst (imagedata s),
             snd (imagedata s) + Z.of_nat (Z.to_nat h) * rowPitch) s) ;;
  void (vkUnmapMemory dst_image_memory) ;;
  void (vkFreeMemory dst_image_memory) ;;
  void (vkDestroyImage dst_image) ;;
  void (vkQueueWaitIdle q).

(** *** The constructor *)

Definition RenderImage (width_ height_ : Z) (output_filename : string)
                       (use_texture_ : bool) : M unit :=
  set width width_ ;;
  set height height_ ;;
  set use_texture (if use_texture_ then 1 else 0) ;;
  createInstance ;;
  setupDebugMessenger ;;
  pickPhysicalDevice ;;
  createLogicalDevice ;;
  createCommandPool ;;
  (if use_texture_ then
     modify (with_ubo_scene (camera_ubo env)) ;;
     loadTextureFromFile "textures/statue.jpg" ;;
     prepareTextureVertexAndIndexBuffers
   else prepareSimpleVertexAndIndexBuffers) ;;
  createFramebufferAttachments ;;
  createRenderPass ;;
  (if use_texture_ then
     prepareGraphicsPipelineTexture ;; createCommandBufferTexture
   else
     prepareGraphicsPipelineSimple ;; createCommandBuffer) ;;
  saveFramebufferImage output_filename.

End Program.

(* ================================================================== *)
(** ** Statements about runs *)
(* ================================================================== *)

(** What a call of createBuffer that returns leaves behind: the four calls
    that create the buffer and its memory, the three that copy [data] when it
    is not null, and the binding, all successful. *)
Definition createBuffer_post (env : Env) (usage_flags memory_property_flags : Z)
    (buffer mem : Var) (size : Z) (data : HostPtr) (s s' : State) : Prop :=
  let n := List.length (log s) in
  let b := handle env n in
  let m := handle env (3 + n) in
  let reqs := memoryRequirements env b in
  let copied :=
    [ Ev (vkUnmapMemory m) VK_SUCCESS 0;
      Ev (memcpy (m, 0) (host_read s' data size)) VK_SUCCESS 0;
      Ev (vkMapMemory m 0 size) VK_SUCCESS 0 ] in
  let bound := Ev (vkBindBufferMemory (this s' buffer) m 0) VK_SUCCESS 0 in
  exists pd,
  let created :=
    [ Ev (vkAllocateMemory (fst reqs)
            (getMemoryTypeIndex (memoryTypes env) (snd reqs) memory_property_flags))
         VK_SUCCESS m;
      Ev (vkGetPhysicalDeviceMemoryProperties pd) VK_SUCCESS 0;
      Ev (vkGetBufferMemoryRequirements b) VK_SUCCESS 0;
      Ev (vkCreateBuffer usage_flags size) VK_SUCCESS b ] in
  this s' mem = m
  /\ (buffer <> mem -> this s' buffer = b)
  /\ (if is_null data
      then log s' = bound :: created ++ log s
      else log s' = bound :: copied ++ created ++ log s
           /\ load_bytes (memory s') m (List.length (host_read s' data size))
              = host_read s' data size).

(** *** A driver that accepts every call *)

Definition zero_memory : Z -> Memory := fun _ _ => x00.

Definition env_with (st : nat -> VkResult)
                    (g : nat -> (Z -> Memory) -> (Z -> Memory))
                    (devices families : list Z)
                    (dec : string -> option (Z * Z * list byte)) : Env := {|
  status := st;
  handle := fun n => 4096 + Z.of_nat n;
  gpu := g;
  physical_devices := devices;
  queueFlags := families;
  memoryTypes := [1; 6; 7];
  memoryRequirements := fun _ => (256, 7);
  subresourceLayout := fun _ => (0, 16);
  ppData_after_failure := fun _ p => p;
  samplerAnisotropy := true;
  linearTilingSampled := true;
  getSupportedDepthFormat := 126;
  instance_layer_names := ["VK_LAYER_KHRONOS_validation"%string];
  decode := dec;
  camera_ubo := repeat "?"%byte 148;
  getAssetPath := "./../data/";
  getShaderBasePath := "./../data/shaders/";
  shaders_option := None;
  DEBUG := true;
  DEFAULT_FENCE_TIMEOUT := 100000000000;
  VK_FLAGS_NONE := 0
|}.

Definition one_texel (_ : string) : option (Z * Z * list byte) :=
  Some (1, 1, ["a"; "b"; "c"; "d"]%byte).

(** One device; its second queue family has the graphics bit. *)
Definition idle : nat -> (Z -> Memory) -> (Z -> Memory) := fun _ m => m.

Definition env_ok : Env :=
  env_with (fun _ => VK_SUCCESS) idle [7] [2; 7] one_texel.

(** The same, but no queue family has the graphics bit. *)
Definition env_no_graphics : Env :=
  env_with (fun _ => VK_SUCCESS) idle [7] [2; 4] one_texel.

(** The same as [env_ok], but the decoder rejects every file. *)
Definition env_undecodable : Env :=
  env_with (fun _ => VK_SUCCESS) idle [7] [2; 7] (fun _ => None).


(** The same as [env_ok], but the instance reports no physical device. *)
Definition env_no_device : Env :=
  env_with (fun _ => VK_SUCCESS) idle [] [2; 7] one_texel.

(** The same as [env_ok], but every submission leaves the bytes 1, 2, 3, ...
    in each device memory. *)
Definition env_counting : Env :=
  env_with (fun _ => VK_SUCCESS) (fun _ _ _ off => byte_of_Z (1 + off))
           [7] [2; 7] one_texel.

Definition s0 : State := {|
  this := fun _ => 0;
  ubo_scene := [];
  shader_modules := [];
  imagedata := (0, 0);
  log := [];
  memory := zero_memory
|}.

(** The object as the constructor leaves it before the texture is loaded:
    [ubo_scene] holds the camera's matrices. *)
Definition s_textured : State := with_ubo_scene (camera_ubo env_ok) s0.

(** The commands of the untextured frame. *)
Definition frame_commands (cmd rp fb pipe vb ib layout w h : Z) : list Call :=
  let projection :=
    glm_perspective (glm_radians (f_lit 60 1))
                    (f_div (f_of_int w) (f_of_int h))
                    (f_lit 1 10) (f_lit 256 1) in
  [ vkCmdBeginRenderPass cmd rp fb w h;
    vkCmdSetViewport cmd w h;
    vkCmdSetScissor cmd w h;
    vkCmdBindPipeline cmd pipe;
    vkCmdBindVertexBuffers cmd vb 0;
    vkCmdBindIndexBuffer cmd ib 0;
    vkCmdPushConstants cmd layout VK_SHADER_STAGE_VERTEX_BIT 0 64
      (mat_mul projection
         (glm_translate mat4_1 (f_lit (-3) 2) (f_lit 0 1) (f_lit (-4) 1)));
    vkCmdDrawIndexed cmd 3 1 0 0 0;
    vkCmdPushConstants cmd layout VK_SHADER_STAGE_VERTEX_BIT 0 64
      (mat_mul projection
         (glm_translate mat4_1 (f_lit 0 1) (f_lit 0 1) (f_lit (-5) 2)));
    vkCmdDrawIndexed cmd 3 1 0 0 0;
    vkCmdPushConstants cmd layout VK_SHADER_STAGE_VERTEX_BIT 0 64
      (mat_mul projection
         (glm_translate mat4_1 (f_lit 3 2) (f_lit 0 1) (f_lit (-4) 1)));
    vkCmdDrawIndexed cmd 3 1 0 0 0;
    vkCmdEndRenderPass cmd ].

(** The commands of the texture upload. *)
Definition texture_upload_commands (cmd sbuf img w h : Z) : list Call :=
  let range := {| aspectMask := 1; baseMipLevel := 0; levelCount := 1;
                  baseArrayLayer := 0; layerCount := 1 |} in
  [ vkCmdPipelineBarrier cmd VK_PIPELINE_STAGE_HOST_BIT VK_PIPELINE_STAGE_TRANSFER_BIT
      {| srcAccessMask := 0;
         dstAccessMask := VK_ACCESS_TRANSFER_WRITE_BIT;
         oldLayout := VK_IMAGE_LAYOUT_UNDEFINED;
         newLayout := VK_IMAGE_LAYOUT_TRANSFER_DST_OPTIMAL;
         image := img; subresourceRange := range |};
    vkCmdCopyBufferToImage cmd sbuf img VK_IMAGE_LAYOUT_TRANSFER_DST_OPTIMAL
      [ {| bufferOffset := 0; mipLevel := 0; region_baseArrayLayer := 0;
           region_layerCount := 1; imageExtent := (w, h, 1) |} ];
    vkCmdPipelineBarrier cmd
      VK_PIPELINE_STAGE_TRANSFER_BIT VK_PIPELINE_STAGE_FRAGMENT_SHADER_BIT
      {| srcAccessMask := VK_ACCESS_TRANSFER_WRITE_BIT;
         dstAccessMask := VK_ACCESS_SHADER_READ_BIT;
         oldLayout := VK_IMAGE_LAYOUT_TRANSFER_DST_OPTIMAL;
         newLayout := VK_IMAGE_LAYOUT_SHADER_READ_ONLY_OPTIMAL;
         image := img; subresourceRange := range |} ].




(** *** Submissions and fences *)

(** Every call but a submission or a fence wait. *)
Definition plain (c : Call) : bool :=
  match c with
  | vkQueueSubmit _ _ _ | vkWaitForFences _ _ _ => false
  | _ => true
  end.

(** The fence of the newest event, when that event is a submission the
    driver accepted. *)
Definition accepted_submission (events : list Event) : option Z :=
  match events with
  | e :: _ =>
      match call e with
      | vkQueueSubmit _ _ fence =>
          if answer e =? VK_SUCCESS then Some fence else None
      | _ => None
      end
  | [] => None
  end.

(** The status of the newest event, when that event is a fence wait that did
    not succeed. *)
Definition failed_wait (events : list Event) : option VkResult :=
  match events with
  | e :: _ =>
      match call e with
      | vkWaitForFences _ _ _ =>
          if answer e =? VK_SUCCESS then None else Some (answer e)
      | _ => None
      end
  | [] => None
  end.

Definition waits_for (fence : Z) (e : Event) : Prop :=
  exists timeout,
    call e = vkWaitForFences fence true timeout /\ 0 <= timeout < 2 ^ 64.

Definition creates_fence (fence : Z) (e : Event) : Prop :=
  (exists flags, call e = vkCreateFence flags)
  /\ answer e = VK_SUCCESS /\ out e = fence.

(** The discipline on a log, newest first: the event after an accepted
    submission waits for its fence, the event before a submission created its
    fence, and nothing follows a wait that did not succeed. *)
Fixpoint fenced (events : list Event) : Prop :=
  match events with
  | [] => True
  | e :: older =>
      fenced older
      /\ match accepted_submission older with
         | Some fence => waits_for fence e
         | None => True
         end
      /\ match call e with
         | vkQueueSubmit _ _ fence =>
             match older with
             | made :: _ => creates_fence fence made
             | [] => False
             end
         | _ => True
         end
      /\ failed_wait older = None
  end.

Definition stop_of {A} (o : Outcome A) : option Stop :=
  match o with
  | Returned _ => None
  | Stopped why => Some why
  end.

(** A log a run may end with: fenced, no submission left without its wait,
    and a failed wait only as the fatal end of the run. *)
Definition good (why : option Stop) (events : list Event) : Prop :=
  fenced events
  /\ accepted_submission events = None
  /\ match failed_wait events with
     | Some res => why = Some (Fatal res)
     | None => True
     end.

(** A program that keeps the discipline, however it ends. *)
Definition sound {A} (m : M A) : Prop :=
  forall s, good None (log s) -> good (stop_of (fst (m s))) (log (snd (m s))).


(* ================================================================== *)
(** ** The destructor and main *)
(* ================================================================== *)

(** The calls of [~RenderImage], in a list of their own: the object's log
    ends with the constructor.  None of them returns a status; the driver is
    asked once, for the address of vkDestroyDebugReportCallbackEXT. *)
Module Teardown.
Inductive Call : Type :=
| vkDestroyBuffer (b : Z)
| vkFreeMemory (m : Z)
| vkDestroyImageView (v : Z)
| vkDestroyImage (i : Z)
| vkDestroyRenderPass (r : Z)
| vkDestroyFramebuffer (f : Z)
| vkDestroyPipelineLayout (l : Z)
| vkDestroyDescriptorSetLayout (l : Z)
| vkDestroyPipeline (p : Z)
| vkDestroyPipelineCache (c : Z)
| vkDestroyCommandPool (p : Z)
| vkDestroyShaderModule (m : Z)
| vkDestroyDevice (d : Z)
| vkGetInstanceProcAddr (name : string)
| vkDestroyDebugReportCallback (c : Z)
| vkDestroyInstance (i : Z).

Definition buffers (calls : list Call) : list Z :=
  flat_map (fun c => match c with vkDestroyBuffer b => [b] | _ => [] end) calls.
Definition memories (calls : list Call) : list Z :=
  flat_map (fun c => match c with vkFreeMemory m => [m] | _ => [] end) calls.
Definition images (calls : list Call) : list Z :=
  flat_map (fun c => match c with vkDestroyImage i => [i] | _ => [] end) calls.
End Teardown.

(** [~RenderImage()]: the calls it makes and how it ends.  With [DEBUG] and a
    callback registered, [assert(vkDestroyDebugReportCallback)] aborts when
    the lookup answers a null pointer. *)
Definition destructor (env : Env) (s : State) : list Teardown.Call * Outcome unit :=
  let t := this s in
  let device_level :=
    [ Teardown.vkDestroyBuffer (t vertex_buffer);
      Teardown.vkFreeMemory (t vertex_memory);
      Teardown.vkDestroyBuffer (t index_buffer);
      Teardown.vkFreeMemory (t index_memory);
      Teardown.vkDestroyImageView (t color_attachment_view);
      Teardown.vkDestroyImage (t color_attachment_image);
      Teardown.vkFreeMemory (t color_attachment_memory);
      Teardown.vkDestroyImageView (t depth_attachment_view);
      Teardown.vkDestroyImage (t depth_attachment_image);
      Teardown.vkFreeMemory (t depth_attachment_memory);
      Teardown.vkDestroyRenderPass (t render_pass);
      Teardown.vkDestroyFramebuffer (t framebuffer);
      Teardown.vkDestroyPipelineLayout (t pipeline_layout);
      Teardown.vkDestroyDescriptorSetLayout (t descriptor_set_layout);
      Teardown.vkDestroyPipeline (t pipeline);
      Teardown.vkDestroyPipelineCache (t pipeline_cache);
      Teardown.vkDestroyCommandPool (t command_pool) ]
    ++ map Teardown.vkDestroyShaderModule (shader_modules s)
    ++ [ Teardown.vkDestroyDevice (t device) ] in
  if DEBUG env && negb (t debug_report_callback =? 0) then
    let lookup := Teardown.vkGetInstanceProcAddr "vkDestroyDebugReportCallbackEXT" in
    if handle env (List.length (log s)) =? 0
    then (device_level ++ [ lookup ], Stopped Aborted)
    else (device_level
          ++ [ lookup;
               Teardown.vkDestroyDebugReportCallback (t debug_report_callback);
               Teardown.vkDestroyInstance (t instance) ],
          Returned tt)
  else (device_level ++ [ Teardown.vkDestroyInstance (t instance) ], Returned tt).

(** [main]; [help] and [use_vertex] are the answers of
    [command_line_parser.isSet] for the two options, the texts it prints are
    left out.  The object lives in a [unique_ptr], so its destructor runs
    when [main] returns; a run that stops inside the constructor never gets
    there. *)
Definition main (env : Env) (help use_vertex : bool) (s : State)
  : Outcome Z * State * list Teardown.Call :=
  if help then (Returned 0, s, [])
  else
    match RenderImage env 640 512 "headless.png" (negb use_vertex) s with
    | (Returned _, s') =>
        (match snd (destructor env s') with
         | Returned _ => Returned 0
         | Stopped why => Stopped why
         end, s', fst (destructor env s'))
    | (Stopped why, s') => (Stopped why, s', [])
    end.

(* ================================================================== *)
(** ** Statements about whole runs *)
(* ================================================================== *)

(** [relaxed] asks for no flag that [required] does not ask for. *)
Definition flags_subset (relaxed required : Z) : Prop :=
  Z.land required relaxed = relaxed.


(** The commands of the readback in saveFramebufferImage. *)
Definition readback_commands (cmd src dst w h : Z) : list Call :=
  let range := {| aspectMask := 1; baseMipLevel := 0; levelCount := 1;
                  baseArrayLayer := 0; layerCount := 1 |} in
  [ vkCmdPipelineBarrier cmd VK_PIPELINE_STAGE_TRANSFER_BIT VK_PIPELINE_STAGE_TRANSFER_BIT
      {| srcAccessMask := 0;
         dstAccessMask := VK_ACCESS_TRANSFER_WRITE_BIT;
         oldLayout := VK_IMAGE_LAYOUT_UNDEFINED;
         newLayout := VK_IMAGE_LAYOUT_TRANSFER_DST_OPTIMAL;
         image := dst; subresourceRange := range |};
    vkCmdCopyImage cmd src VK_IMAGE_LAYOUT_TRANSFER_SRC_OPTIMAL
                   dst VK_IMAGE_LAYOUT_TRANSFER_DST_OPTIMAL w h;
    vkCmdPipelineBarrier cmd VK_PIPELINE_STAGE_TRANSFER_BIT VK_PIPELINE_STAGE_TRANSFER_BIT
      {| srcAccessMask := VK_ACCESS_TRANSFER_WRITE_BIT;
         dstAccessMask := VK_ACCESS_MEMORY_READ_BIT;
         oldLayout := VK_IMAGE_LAYOUT_TRANSFER_DST_OPTIMAL;
         newLayout := VK_IMAGE_LAYOUT_GENERAL;
         image := dst; subresourceRange := range |} ].

(** The commands of the textured frame. *)
Definition textured_frame_commands (cmd rp fb layout dset pipe vb ib count w h : Z)
  : list Call :=
  [ vkCmdBeginRenderPass cmd rp fb w h;
    vkCmdSetViewport cmd w h;
    vkCmdSetScissor cmd w h;
    vkCmdBindDescriptorSets cmd layout dset;
    vkCmdBindPipeline cmd pipe;
    vkCmdBindVertexBuffers cmd vb 0;
    vkCmdBindIndexBuffer cmd ib 0;
    vkCmdDrawIndexed cmd count 1 0 0 0;
    vkCmdEndRenderPass cmd ].

(** Everything an untextured run records, in the order of recording: the two
    uploads, the frame, the readback. *)
Definition untextured_stream (s' : State) (w h up sb1 sb2 fr rb dst : Z) : list Call :=
  [ vkCmdCopyBuffer up sb1 (this s' vertex_buffer) (3 * sizeof_SimpleVertex);
    vkCmdCopyBuffer up sb2 (this s' index_buffer) (3 * sizeof_uint32_t) ]
  ++ frame_commands fr (this s' render_pass) (this s' framebuffer) (this s' pipeline)
       (this s' vertex_buffer) (this s' index_buffer) (this s' pipeline_layout) w h
  ++ readback_commands rb (this s' color_attachment_image) dst w h.

(** The same for a textured run, which uploads the texture first. *)
Definition textured_stream (s' : State) (w h tc tsb up sb1 sb2 fr rb dst : Z)
  : list Call :=
  texture_upload_commands tc tsb (this s' texture_image)
    (this s' texture_width) (this s' texture_height)
  ++ [ vkCmdCopyBuffer up sb1 (this s' vertex_buffer) (3 * sizeof_TextureVertex);
       vkCmdCopyBuffer up sb2 (this s' index_buffer) (3 * sizeof_uint32_t) ]
  ++ textured_frame_commands fr (this s' render_pass) (this s' framebuffer)
       (this s' pipeline_layout) (this s' descriptor_set) (this s' pipeline)
       (this s' vertex_buffer) (this s' index_buffer) 3 w h
  ++ readback_commands rb (this s' color_attachment_image) dst w h.

(** *** Resources created and released *)

(** The handles the successful calls of one kind have returned, newest
    first. *)
Definition created_of (kind : Call -> bool) (events : list Event) : list Z :=
  flat_map (fun e => if kind (call e) && (answer e =? VK_SUCCESS)
                     then [out e] else []) events.

Definition is_vkCreateBuffer (c : Call) : bool :=
  match c with vkCreateBuffer _ _ => true | _ => false end.
Definition is_vkAllocateMemory (c : Call) : bool :=
  match c with vkAllocateMemory _ _ => true | _ => false end.
Definition is_vkCreateImage (c : Call) : bool :=
  match c with vkCreateImage _ _ _ _ _ _ _ => true | _ => false end.

Definition destroyed_buffers (events : list Event) : list Z :=
  flat_map (fun e => match call e with vkDestroyBuffer b => [b] | _ => [] end) events.
Definition freed_memory (events : list Event) : list Z :=
  flat_map (fun e => match call e with vkFreeMemory m => [m] | _ => [] end) events.
Definition destroyed_images (events : list Event) : list Z :=
  flat_map (fun e => match call e with vkDestroyImage i => [i] | _ => [] end) events.

(** The six lists of a stretch of the log. *)
Definition accounts (events : list Event) (mb gb mm gm mi gi : list Z) : Prop :=
  created_of is_vkCreateBuffer events = mb /\ destroyed_buffers events = gb
  /\ created_of is_vkAllocateMemory events = mm /\ freed_memory events = gm
  /\ created_of is_vkCreateImage events = mi /\ destroyed_images events = gi.

(** A call that records no command and neither creates nor releases a
    buffer, a memory block or an image. *)
Definition quiet_call (c : Call) : bool :=
  negb (commands_only c || is_vkCreateBuffer c || is_vkAllocateMemory c
        || is_vkCreateImage c
        || match c with
           | vkDestroyBuffer _ | vkFreeMemory _ | vkDestroyImage _ => true
           | _ => false
           end).

Definition quiet (events : list Event) : Prop :=
  forallb (fun e => quiet_call (call e)) events = true.

(** *** Footprints *)

(** The files written, newest first, each with its name. *)
Definition files_written (events : list Event) : list (string * list byte) :=
  flat_map (fun e => match call e with
                     | ofstream_write fname contents => [(fname, contents)]
                     | _ => []
                     end) events.

(** From [s] to [s'] only [allowed] calls were made and no member among
    [kept] has changed. *)
Definition stays (allowed : Call -> bool) (kept : Var -> bool) (s s' : State) : Prop :=
  (exists new, log s' = new ++ log s
               /\ forallb (fun e => allowed (call e)) new = true)
  /\ (forall v, kept v = true -> this s' v = this s v).

(** A computation that stays within the footprint, however it ends. *)
Definition confined (allowed : Call -> bool) (kept : Var -> bool) {A} (m : M A) : Prop :=
  forall s, stays allowed kept s (snd (m s)).

Definition no_file (c : Call) : bool :=
  match c with ofstream_write _ _ => false | _ => true end.

Definition extent (v : Var) : bool :=
  match v with width | height => true | _ => false end.

(** What a run that ends in saveFramebufferImage has written: one image of
    [w] by [h] pixels under the name [fname] when it returns, nothing when it
    stops. *)
Definition writes_image_last (fname : string) (w h : Z) (s : State)
                             (run : Outcome unit * State) : Prop :=
  exists new,
    log (snd run) = new ++ log s
    /\ match fst run with
       | Returned _ =>
           exists mem p a,
             files_written new = [(fname, ppm_file mem color_swizzle w h p a)]
       | Stopped _ => files_written new = []
       end.

(** *** Where a run stops *)

(** Where a run that stops has stopped: right after the call that made it
    stop, which is the newest entry of the log. *)
Definition stop_site (env : Env) {A} (o : Outcome A) (l : list Event) : Prop :=
  match o with
  | Returned _ => True
  | Stopped (Fatal r) =>
      r <> VK_SUCCESS /\ exists c o older, l = Ev c r o :: older
  | Stopped (Thrown what) =>
      what = "failed to load texture image!"%string
      /\ exists f older,
           decode env f = None /\ l = Ev (stbi_load f) VK_SUCCESS 0 :: older
  | Stopped Aborted =>
      DEBUG env = true
      /\ exists older,
           l = Ev (vkGetInstanceProcAddr "vkCreateDebugReportCallbackEXT")
                  VK_SUCCESS 0 :: older
  | Stopped Undefined =>
      physical_devices env = []
      /\ exists older, l = Ev vkEnumeratePhysicalDevices VK_SUCCESS 0 :: older
  end.

(** A computation that stops nowhere else. *)
Definition halts_at_failure (env : Env) {A} (m : M A) : Prop :=
  forall s, stop_site env (fst (m s)) (log (snd (m s))).

(** A computation whose result, when it is not success, is the answer to the
    call it has made last. *)
Definition reports (m : M VkResult) : Prop :=
  forall s r s', m s = (Returned r, s') ->
    r = VK_SUCCESS \/ exists c o older, log s' = Ev c r o :: older.

(** *** Two more drivers *)

(** The same as [env_ok], but the instance offers no layer. *)
Definition env_no_layers : Env := {|
  status := status env_ok;
  handle := handle env_ok;
  gpu := gpu env_ok;
  physical_devices := physical_devices env_ok;
  queueFlags := queueFlags env_ok;
  memoryTypes := memoryTypes env_ok;
  memoryRequirements := memoryRequirements env_ok;
  subresourceLayout := subresourceLayout env_ok;
  ppData_after_failure := ppData_after_failure env_ok;
  samplerAnisotropy := samplerAnisotropy env_ok;
  linearTilingSampled := linearTilingSampled env_ok;
  getSupportedDepthFormat := getSupportedDepthFormat env_ok;
  instance_layer_names := [];
  decode := decode env_ok;
  camera_ubo := camera_ubo env_ok;
  getAssetPath := getAssetPath env_ok;
  getShaderBasePath := getShaderBasePath env_ok;
  shaders_option := shaders_option env_ok;
  DEBUG := DEBUG env_ok;
  DEFAULT_FENCE_TIMEOUT := DEFAULT_FENCE_TIMEOUT env_ok;
  VK_FLAGS_NONE := VK_FLAGS_NONE env_ok
|}.




(** A memory whose fourth byte of every pixel is set. *)
Definition alpha_only : Memory := fun i => if i mod 4 =? 3 then xff else x00.

(* ================================================================== *)
(** * Theorems *)
(* ================================================================== *)

(** ** getMemoryTypeIndex *)

Lemma land_1_testbit (a : Z) : (Z.land a 1 =? 1) = Z.testbit a 0.
Proof.
  rewrite Z.bit0_odd.
  change 1 with (Z.ones 1) at 1. rewrite Z.land_ones by lia.
  change (2 ^ 1) with 2. rewrite Zmod_odd.
  destruct (Z.odd a); reflexivity.
Qed.

Lemma getMemoryTypeIndex_loop_spec (properties : Z) (types : list Z) :
  forall i type_bits,
    (forall k, (k < List.length types)%nat ->
               Z.testbit type_bits (Z.of_nat k) = true ->
               Z.land (nth k types 0) properties = properties ->
               exists k0, (k0 <= k)%nat
                 /\ getMemoryTypeIndex_loop i types type_bits properties
                    = i + Z.of_nat k0
                 /\ (k0 < List.length types)%nat
                 /\ Z.testbit type_bits (Z.of_nat k0) = true
                 /\ Z.land (nth k0 types 0) properties = properties)
    /\ ((forall k, (k < List.length types)%nat ->
                   Z.testbit type_bits (Z.of_nat k) = true ->
                   Z.land (nth k types 0) properties = properties -> False) ->
        getMemoryTypeIndex_loop i types type_bits properties = 0).
Proof.
  induction types as [|flags rest IH]; intros i type_bits; simpl.
  - split; [intros k Hk; inversion Hk | reflexivity].
  - rewrite land_1_testbit.
    destruct (Z.testbit type_bits 0) eqn:Hbit;
      [destruct (Z.land flags properties =? properties) eqn:Hfl|]; simpl.
    + apply Z.eqb_eq in Hfl. split.
      * intros k _ _ _. exists O. simpl.
        repeat split; auto; lia.
      * intros Hnone. exfalso. apply (Hnone O); simpl; auto; lia.
    + apply Z.eqb_neq in Hfl.
      destruct (IH (i + 1) (Z.shiftr type_bits 1)) as [IHfound IHnone]. split.
      * intros [|k] Hk Hb Hp; [simpl in Hp; contradiction|].
        destruct (IHfound k) as (k0 & Hle & Hres & Hlt & Hb0 & Hp0).
        { simpl in Hk. lia. }
        { rewrite Z.shiftr_spec by lia. rewrite <- Hb. f_equal. lia. }
        { exact Hp. }
        exists (S k0). rewrite Z.shiftr_spec in Hb0 by lia.
        split; [lia|]. split; [rewrite Hres; lia|]. split; [simpl; lia|].
        split; [rewrite <- Hb0; f_equal; lia | exact Hp0].
      * intros Hnone. apply IHnone. intros k Hk Hb Hp.
        rewrite Z.shiftr_spec in Hb by lia.
        apply (Hnone (S k)); [simpl; lia | rewrite <- Hb; f_equal; lia | exact Hp].
    + destruct (IH (i + 1) (Z.shiftr type_bits 1)) as [IHfound IHnone]. split.
      * intros [|k] Hk Hb Hp; [change (Z.of_nat 0) with 0 in Hb; congruence|].
        destruct (IHfound k) as (k0 & Hle & Hres & Hlt & Hb0 & Hp0).
        { simpl in Hk. lia. }
        { rewrite Z.shiftr_spec by lia. rewrite <- Hb. f_equal. lia. }
        { exact Hp. }
        exists (S k0). rewrite Z.shiftr_spec in Hb0 by lia.
        split; [lia|]. split; [rewrite Hres; lia|]. split; [simpl; lia|].
        split; [rewrite <- Hb0; f_equal; lia | exact Hp0].
      * intros Hnone. apply IHnone. intros k Hk Hb Hp.
        rewrite Z.shiftr_spec in Hb by lia.
        apply (Hnone (S k)); [simpl; lia | rewrite <- Hb; f_equal; lia | exact Hp].
Qed.

(** C2. Whenever some memory type qualifies for [(type_bits, properties)],
    getMemoryTypeIndex returns the smallest qualifying index; when none
    qualifies it returns 0. *)
Theorem C2_getMemoryTypeIndex_first_match
        (memoryTypes : list Z) (type_bits properties : Z) :
  (forall i, qualifies memoryTypes type_bits properties i ->
     qualifies memoryTypes type_bits properties
               (getMemoryTypeIndex memoryTypes type_bits properties)
     /\ getMemoryTypeIndex memoryTypes type_bits properties <= i)
  /\ ((forall i, ~ qualifies memoryTypes type_bits properties i) ->
      getMemoryTypeIndex memoryTypes type_bits properties = 0).
Proof.
  unfold getMemoryTypeIndex, qualifies.
  destruct (getMemoryTypeIndex_loop_spec properties memoryTypes 0 type_bits)
    as [Hfound Hnone].
  split.
  - intros i ((Hi0 & Hi1) & Hb & Hp).
    destruct (Hfound (Z.to_nat i)) as (k0 & Hle & Hres & Hlt & Hb0 & Hp0).
    + lia.
    + rewrite Z2Nat.id by lia. exact Hb.
    + exact Hp.
    + rewrite Hres. simpl. rewrite Nat2Z.id. repeat split; auto; lia.
  - intros Hno. apply Hnone. intros k Hk Hb Hp.
    apply (Hno (Z.of_nat k)). rewrite Nat2Z.id. repeat split; auto; lia.
Qed.

Lemma C2_getMemoryTypeIndex_first_match_witness :
  (qualifies [1; 6; 7; 6] 14 6 3 ->
   qualifies [1; 6; 7; 6] 14 6 (getMemoryTypeIndex [1; 6; 7; 6] 14 6)
   /\ getMemoryTypeIndex [1; 6; 7; 6] 14 6 <= 3)
  /\ getMemoryTypeIndex [1; 6; 7; 6] 14 6 = 1
  /\ qualifies [1; 6; 7; 6] 14 6 3.
Proof.
  split; [|split].
  - apply (proj1 (C2_getMemoryTypeIndex_first_match [1; 6; 7; 6] 14 6) 3).
  - reflexivity.
  - unfold qualifies. simpl. repeat split; lia.
Defined.

(** ** Running the program symbolically *)

Lemma upd_same v x f : upd v x f v = x.
Proof. unfold upd. destruct (Var_eq_dec v v); congruence. Qed.

Lemma upd_other v v' x f : v <> v' -> upd v x f v' = f v'.
Proof. unfold upd. destruct (Var_eq_dec v v'); congruence. Qed.

(** Unfolds the monad and the state accessors, leaving the driver's answers
    as the only thing the run waits for. *)
Ltac exec :=
  cbv beta iota zeta delta
    [bind ret stop get set get_state modify api api_out api_into checked_local
     void void_out queue_submit do_memcpy VK_CHECK_RESULT call_getMemoryTypeIndex
     for_each fold_right insertImageMemoryBarrier begin_frame
     with_this with_ubo_scene with_shader_modules with_imagedata with_log with_memory
     this ubo_scene shader_modules imagedata log memory];
  cbn [List.length fst snd].

(** Splits on the answer to the checked call at position [n]: in the branch
    where it is not success the run is over. *)
Ltac answer_at env n E :=
  destruct (status env n =? VK_SUCCESS) eqn:E;
  [apply Z.eqb_eq in E | apply Z.eqb_neq in E].

Ltac exec_in H :=
  cbv beta iota zeta delta
    [bind ret stop get set get_state modify api api_out api_into checked_local
     void void_out queue_submit do_memcpy VK_CHECK_RESULT call_getMemoryTypeIndex
     for_each fold_right insertImageMemoryBarrier begin_frame
     with_this with_ubo_scene with_shader_modules with_imagedata with_log with_memory
     this ubo_scene shader_modules imagedata log memory] in H;
  cbn [List.length fst snd] in H.

(** One checked call of a run [H] known to return: its answer was success. *)
Ltac passed H :=
  match type of H with
  | context [status ?env ?n =? VK_SUCCESS] =>
      let E := fresh "E" in
      destruct (status env n =? VK_SUCCESS) eqn:E;
      [ apply Z.eqb_eq in E
      | exfalso; exec_in H; discriminate H ];
      exec_in H
  end.

(** The events of [l] that are not yet in [old]. *)
Ltac new_events l old :=
  match l with
  | old => constr:(@nil Event)
  | ?e :: ?l' => let p := new_events l' old in constr:(e :: p)
  end.

Ltac give_new_events old :=
  match goal with
  | |- exists new, ?l = _ /\ _ => let n := new_events l old in exists n
  end.

Lemma load_store_bytes m blk bytes :
  load_bytes (store_bytes (blk, 0) bytes m) blk (List.length bytes) = bytes.
Proof.
  unfold load_bytes.
  apply nth_ext with (d := x00) (d' := x00).
  - rewrite length_map, length_seq. reflexivity.
  - intros i Hi. rewrite length_map, length_seq in Hi.
    rewrite nth_indep with (d' := store_bytes (blk, 0) bytes m blk 0)
      by (rewrite length_map, length_seq; exact Hi).
    change (store_bytes (blk, 0) bytes m blk 0)
      with ((fun i => store_bytes (blk, 0) bytes m blk (Z.of_nat i)) O).
    rewrite map_nth. rewrite seq_nth by exact Hi. simpl.
    unfold store_bytes. simpl.
    rewrite Z.eqb_refl. simpl.
    replace (0 <=? Z.of_nat i) with true by (symmetry; apply Z.leb_le; lia).
    replace (Z.of_nat i <? Z.of_nat (List.length bytes)) with true
      by (symmetry; apply Z.ltb_lt; lia).
    simpl. rewrite Z.sub_0_r, Nat2Z.id. apply nth_indep. exact Hi.
Qed.

(** ** createBuffer *)

(** C10. For every combination of arguments createBuffer either stops inside
    a checked API call with a status other than success, or returns
    VK_SUCCESS; in the second case the buffer and its memory were created and
    bound, and when [data] is not null its first [size] bytes were copied
    into the mapped memory before the binding. *)
Theorem C10_createBuffer_success_or_fatal
        (env : Env) (usage_flags memory_property_flags : Z)
        (buffer mem : Var) (size : Z) (data : HostPtr) (s : State) :
  (exists s',
      createBuffer env usage_flags memory_property_flags buffer mem size data s
      = (Returned VK_SUCCESS, s')
      /\ createBuffer_post env usage_flags memory_property_flags
                           buffer mem size data s s')
  \/ (exists res s',
         createBuffer env usage_flags memory_property_flags buffer mem size data s
         = (Stopped (Fatal res), s')
         /\ res <> VK_SUCCESS).
Proof.
  destruct s as [th ubo sm im lg me].
  unfold createBuffer_post, createBuffer. exec.
  answer_at env (List.length lg) E1; [|right; eauto].
  exec. rewrite ?upd_same.
  answer_at env (S (S (S (List.length lg)))) E2; [|right; eauto].
  exec. rewrite ?upd_same.
  destruct data as [|contents|v]; cbn [is_null]; exec.
  - answer_at env (S (S (S (S (List.length lg))))) E3; [|right; eauto].
    left. eexists. split; [reflexivity|]. cbn [this log memory].
    rewrite ?upd_same, E1, E2, E3. eexists.
    split; [reflexivity|]. split; [|reflexivity].
    intros Hne. rewrite upd_other by congruence. apply upd_same.
  - answer_at env (S (S (S (S (List.length lg))))) E3; [|right; eauto].
    exec. rewrite ?upd_same.
    answer_at env (S (S (S (S (S (S (S (List.length lg)))))))) E4; [|right; eauto].
    left. eexists. split; [reflexivity|]. cbn [this log memory].
    rewrite ?upd_same, E1, E2, E3, E4. eexists.
    split; [reflexivity|].
    split; [intros Hne; rewrite upd_other by congruence; apply upd_same|].
    split; [reflexivity|]. apply load_store_bytes.
  - answer_at env (S (S (S (S (List.length lg))))) E3; [|right; eauto].
    exec. rewrite ?upd_same.
    answer_at env (S (S (S (S (S (S (S (List.length lg)))))))) E4; [|right; eauto].
    left. eexists. split; [reflexivity|]. cbn [this log memory].
    rewrite ?upd_same, E1, E2, E3, E4. eexists.
    split; [reflexivity|].
    split; [intros Hne; rewrite upd_other by congruence; apply upd_same|].
    unfold host_read, object_bytes. cbn [this ubo_scene].
    split; [reflexivity|]. apply load_store_bytes.
Qed.

(** ** The uniform buffer of the textured pipeline *)

(** What prepareGraphicsPipelineTexture uploads: the bytes found at
    [&uniform_buffer_modelview], the address it passes as [data]. *)
Lemma uniform_buffer_contents env s s' :
  prepareGraphicsPipelineTexture env s = (Returned tt, s') ->
  let uploaded :=
    firstn (Z.to_nat sizeof_UniformBufferObject)
           (handle_bytes (this s' uniform_buffer_modelview)
            ++ handle_bytes (this s' uniform_buffer_memory)
            ++ ubo_scene s') in
  load_bytes (memory s') (this s' uniform_buffer_memory) (List.length uploaded)
  = uploaded.
Proof.
  destruct s as [th ubo sm im lg me]. intros H.
  unfold prepareGraphicsPipelineTexture, createBuffer in H.
  cbn [is_null] in H. exec_in H.
  repeat passed H.
  change (VK_SUCCESS =? VK_SUCCESS) with true in H. exec_in H.
  repeat passed H.
  injection H as <-. cbn [this memory ubo_scene].
  unfold host_read, object_bytes. cbn [this ubo_scene].
  apply load_store_bytes.
Qed.

(** C1. With a driver that accepts every call, the uniform buffer created by
    prepareGraphicsPipelineTexture has the size of the UniformBufferObject,
    but its contents start with the eight bytes of the buffer handle and
    differ from the [ubo_scene] record set up from the camera. *)
Theorem C1_uniform_buffer_holds_handle_bytes :
  let r := prepareGraphicsPipelineTexture env_ok s_textured in
  let s' := snd r in
  let contents := load_bytes (memory s') (this s' uniform_buffer_memory)
                             (Z.to_nat sizeof_UniformBufferObject) in
  fst r = Returned tt
  /\ ubo_scene s' = camera_ubo env_ok
  /\ List.length (ubo_scene s') = Z.to_nat sizeof_UniformBufferObject
  /\ firstn 8 contents = handle_bytes (this s' uniform_buffer_modelview)
  /\ contents <> ubo_scene s'.
Proof.
  vm_compute. repeat split; try reflexivity. discriminate.
Qed.

(** ** Device bootstrap *)

(** C3, as the claim states it, fails: with no graphics-capable queue family
    and a driver that accepts the calls, createLogicalDevice returns, and so
    does the whole constructor. *)
Lemma C3_no_graphics_family_not_fatal :
  find_graphics_family 0 (queueFlags env_no_graphics) = None
  /\ fst (createLogicalDevice env_no_graphics s0) = Returned tt
  /\ fst (RenderImage env_no_graphics 2 2 "headless.png" false s0) = Returned tt.
Proof. vm_compute. repeat split; reflexivity. Qed.

(** C3, amended.  Device bootstrap stops with a fatal error exactly when a
    checked call returns a status other than success: one of the two
    vkEnumeratePhysicalDevices calls in pickPhysicalDevice, the vkCreateDevice
    call in createLogicalDevice.  When no queue family has the graphics bit
    the queue create info handed to vkCreateDevice is still all zero. *)
Theorem C3_bootstrap_fatal_only_on_failed_call env s :
  let n := List.length (log s) in
  (forall res,
      fst (pickPhysicalDevice env s) = Stopped (Fatal res) <->
      res <> VK_SUCCESS
      /\ (status env n = res
          \/ (status env n = VK_SUCCESS /\ status env (1 + n) = res)))
  /\ fst (createLogicalDevice env s)
     = (if status env (2 + n) =? VK_SUCCESS then Returned tt
        else Stopped (Fatal (status env (2 + n))))
  /\ (find_graphics_family 0 (queueFlags env) = None ->
      In (Ev (vkCreateDevice (this s physical_device) 1
                {| sType := 0; queueFamilyIndex := 0; queueCount := 0 |})
             (status env (2 + n)) (handle env (2 + n)))
         (log (snd (createLogicalDevice env s)))).
Proof.
  destruct s as [th ubo sm im lg me]. cbn [log this].
  split; [|split].
  - intros res. unfold pickPhysicalDevice. exec.
    answer_at env (List.length lg) E1.
    + exec. answer_at env (S (List.length lg)) E2.
      * exec. destruct (physical_devices env); cbn; split.
        -- discriminate.
        -- intros [Hne [H|[_ H]]]; congruence.
        -- discriminate.
        -- intros [Hne [H|[_ H]]]; congruence.
      * exec. cbn. split.
        -- intros H. injection H as <-. auto.
        -- intros [Hne [H|[_ H]]]; congruence.
    + exec. cbn. split.
      * intros H. injection H as <-. auto.
      * intros [Hne [H|[H _]]]; congruence.
  - unfold createLogicalDevice. exec.
    destruct (find_graphics_family 0 (queueFlags env)); exec;
      cbn [Nat.add]; destruct (status env _ =? VK_SUCCESS); reflexivity.
  - intros Hnone. unfold createLogicalDevice. exec. rewrite Hnone. exec.
    cbn [Nat.add]. destruct (status env _ =? VK_SUCCESS); cbn; auto.
Qed.

Lemma C3_bootstrap_fatal_only_on_failed_call_witness :
  find_graphics_family 0 (queueFlags env_no_graphics) = None
  /\ In (Ev (vkCreateDevice (this s0 physical_device) 1
               {| sType := 0; queueFamilyIndex := 0; queueCount := 0 |})
            (status env_no_graphics 2) (handle env_no_graphics 2))
        (log (snd (createLogicalDevice env_no_graphics s0))).
Proof.
  split; [reflexivity|].
  apply (proj2 (proj2 (C3_bootstrap_fatal_only_on_failed_call env_no_graphics s0))).
  reflexivity.
Defined.

(** With no physical device and both enumeration calls successful,
    pickPhysicalDevice reaches [physical_devices[0]] on an empty vector. *)
Example pickPhysicalDevice_empty_vector :
  fst (pickPhysicalDevice env_no_device s0) = Stopped Undefined.
Proof. reflexivity. Qed.

(** ** loadTextureFromFile *)

(** C7. When the decoder cannot decode the file, loadTextureFromFile throws
    right after the call of the decoder: the log gains that call and nothing
    else, so no buffer, memory, image, sampler or view has been created. *)
Theorem C7_undecodable_texture_throws_first env fname s :
  decode env (getAssetPath env ++ fname) = None ->
  loadTextureFromFile env fname s
  = (Stopped (Thrown "failed to load texture image!"),
     with_log (Ev (stbi_load (getAssetPath env ++ fname)) VK_SUCCESS 0 :: log s) s).
Proof.
  intros H. unfold loadTextureFromFile. exec. rewrite H. reflexivity.
Qed.

Lemma C7_undecodable_texture_throws_first_witness :
  loadTextureFromFile env_undecodable "textures/statue.jpg" s0
  = (Stopped (Thrown "failed to load texture image!"),
     with_log (Ev (stbi_load "./../data/textures/statue.jpg") VK_SUCCESS 0 :: log s0)
              s0).
Proof.
  apply (C7_undecodable_texture_throws_first env_undecodable "textures/statue.jpg" s0).
  reflexivity.
Defined.



(** ** The untextured frame *)

(** C8. A call of createCommandBuffer that returns has recorded, after the
    render pass opening and the bindings, exactly three indexed draws of 3
    indices and 1 instance, each right after a push-constant update of 64
    bytes on the vertex stage whose value is the perspective projection (60
    degrees, width/height, 0.1, 256) times the translation by (-1.5, 0, -4),
    (0, 0, -2.5) and (1.5, 0, -4) in turn. *)
Theorem C8_untextured_frame env s s' :
  createCommandBuffer env s = (Returned tt, s') ->
  exists new,
    log s' = new ++ log s
    /\ recorded new =
       frame_commands (handle env (List.length (log s)))
         (this s render_pass) (this s framebuffer) (this s pipeline)
         (this s vertex_buffer) (this s index_buffer) (this s pipeline_layout)
         (this s width) (this s height).
Proof.
  destruct s as [th ubo sm im lg me]. intros H.
  unfold createCommandBuffer, submitWork, pos, mvpMatrix in H. exec_in H.
  repeat passed H.
  injection H as <-. cbn [log this].
  give_new_events lg.
  split; reflexivity.
Qed.

Lemma C8_untextured_frame_witness :
  exists new,
    log (snd (createCommandBuffer env_ok s0)) = new ++ log s0
    /\ recorded new =
       frame_commands (handle env_ok (List.length (log s0)))
         (this s0 render_pass) (this s0 framebuffer) (this s0 pipeline)
         (this s0 vertex_buffer) (this s0 index_buffer) (this s0 pipeline_layout)
         (this s0 width) (this s0 height).
Proof.
  apply (C8_untextured_frame env_ok s0). vm_compute. reflexivity.
Defined.

(** ** The image file *)

Lemma write_row_length mem swz row n :
  List.length (write_row mem swz row n) = (3 * n)%nat.
Proof.
  revert row. induction n as [|n IH]; intros row; simpl; [reflexivity|].
  rewrite length_app, IH. unfold write_pixel. destruct swz; simpl; lia.
Qed.

Lemma write_rows_length mem swz w p a n :
  List.length (write_rows mem swz w p a n) = (n * (3 * Z.to_nat w))%nat.
Proof.
  revert a. induction n as [|n IH]; intros a; simpl; [reflexivity|].
  rewrite length_app, IH, write_row_length. lia.
Qed.

Lemma flat_map_seq_shift {A} (f : nat -> list A) n :
  flat_map f (seq 1 n) = flat_map (fun x => f (S x)) (seq 0 n).
Proof.
  rewrite <- seq_shift. rewrite !flat_map_concat_map, map_map. reflexivity.
Qed.

Lemma write_row_packed mem swz row n :
  write_row mem swz row n
  = flat_map (fun x => write_pixel mem swz (row + 4 * Z.of_nat x)) (seq 0 n).
Proof.
  revert row. induction n as [|n IH]; intros row; [reflexivity|].
  cbn [write_row seq flat_map]. rewrite flat_map_seq_shift, IH.
  f_equal; [f_equal; lia|].
  apply flat_map_ext. intros x. f_equal. lia.
Qed.

Lemma write_rows_packed mem swz w p a n :
  write_rows mem swz w p a n
  = flat_map (fun y => flat_map
                (fun x => write_pixel mem swz (a + Z.of_nat y * p + 4 * Z.of_nat x))
                (seq 0 (Z.to_nat w)))
             (seq 0 n).
Proof.
  revert a. induction n as [|n IH]; intros a; [reflexivity|].
  cbn [write_rows seq flat_map]. rewrite flat_map_seq_shift, IH, write_row_packed.
  f_equal.
  - apply flat_map_ext. intros x. f_equal. lia.
  - apply flat_map_ext. intros y. apply flat_map_ext. intros x. f_equal. lia.
Qed.

Lemma write_row_nth mem swz n : forall row x c d,
  (x < n)%nat -> (c < 3)%nat ->
  nth (3 * x + c) (write_row mem swz row n) d
  = nth c (write_pixel mem swz (row + 4 * Z.of_nat x)) d.
Proof.
  induction n as [|n IH]; intros row x c d Hx Hc; [lia|].
  cbn [write_row]. destruct x as [|x].
  - rewrite app_nth1 by (unfold write_pixel; destruct swz; simpl; lia).
    replace (row + 4 * Z.of_nat 0) with row by lia. reflexivity.
  - rewrite app_nth2 by (unfold write_pixel; destruct swz; simpl; lia).
    replace (3 * S x + c - List.length (write_pixel mem swz row))%nat
      with (3 * x + c)%nat by (unfold write_pixel; destruct swz; simpl; lia).
    rewrite IH by lia. f_equal. f_equal. lia.
Qed.

Lemma write_rows_nth mem swz w p n : forall a x y c d,
  (y < n)%nat -> (x < Z.to_nat w)%nat -> (c < 3)%nat ->
  nth (3 * (y * Z.to_nat w + x) + c) (write_rows mem swz w p a n) d
  = nth c (write_pixel mem swz (a + Z.of_nat y * p + 4 * Z.of_nat x)) d.
Proof.
  induction n as [|n IH]; intros a x y c d Hy Hx Hc; [lia|].
  cbn [write_rows]. destruct y as [|y].
  - replace (3 * (0 * Z.to_nat w + x) + c)%nat with (3 * x + c)%nat by lia.
    rewrite app_nth1 by (rewrite write_row_length; lia).
    rewrite write_row_nth by lia. f_equal. f_equal. lia.
  - rewrite app_nth2 by (rewrite write_row_length; nia).
    rewrite write_row_length.
    replace (3 * (S y * Z.to_nat w + x) + c - 3 * Z.to_nat w)%nat
      with (3 * (y * Z.to_nat w + x) + c)%nat by nia.
    rewrite IH by lia. f_equal. f_equal. lia.
Qed.




(** ** The file saveFramebufferImage leaves *)


(** ** Submissions and their fences *)


Lemma good_failed_wait l : good None l -> failed_wait l = None.
Proof.
  intros (_ & _ & H). destruct (failed_wait l); [discriminate|reflexivity].
Qed.

Lemma good_weaken why l : good None l -> good why l.
Proof.
  intros H. pose proof (good_failed_wait l H) as Hw.
  destruct H as (Hf & Ha & _). unfold good. rewrite Hw. auto.
Qed.

Lemma good_plain why c r o l :
  plain c = true -> good None l -> good why (Ev c r o :: l).
Proof.
  intros Hc H. pose proof (good_failed_wait l H) as Hw.
  destruct H as (Hf & Ha & _).
  unfold good. cbn [fenced accepted_submission failed_wait call answer].
  rewrite Ha, Hw.
  destruct c; try discriminate Hc; repeat split; auto.
Qed.

Lemma sound_ret {A} (a : A) : sound (ret a).
Proof. intros s H. exact H. Qed.

Lemma sound_stop {A} why : sound (@stop A why).
Proof. intros s H. apply good_weaken. exact H. Qed.

Lemma sound_get v : sound (get v).
Proof. intros s H. exact H. Qed.

Lemma sound_get_state : sound get_state.
Proof. intros s H. exact H. Qed.

Lemma sound_set v x : sound (set v x).
Proof. intros s H. exact H. Qed.

Lemma sound_modify f : (forall s, log (f s) = log s) -> sound (modify f).
Proof. intros Hf s H. cbn. rewrite Hf. exact H. Qed.

Lemma sound_bind {A B} (m : M A) (f : A -> M B) :
  sound m -> (forall a, sound (f a)) -> sound (bind m f).
Proof.
  intros Hm Hf s H. specialize (Hm s H). unfold bind.
  destruct (m s) as [[a|why] s1]; cbn [fst snd stop_of] in *.
  - apply Hf. exact Hm.
  - exact Hm.
Qed.

Lemma sound_api env c : plain c = true -> sound (api env c).
Proof. intros Hc s H. apply good_plain; assumption. Qed.

Lemma sound_api_out env c : plain c = true -> sound (api_out env c).
Proof. intros Hc s H. apply good_plain; assumption. Qed.

Lemma sound_void c : plain c = true -> sound (void c).
Proof. intros Hc s H. apply good_plain; assumption. Qed.

Lemma sound_void_out env c : plain c = true -> sound (void_out env c).
Proof. intros Hc s H. apply good_plain; assumption. Qed.

Lemma sound_memcpy p bytes : sound (do_memcpy p bytes).
Proof. intros s H. apply good_plain; [reflexivity|assumption]. Qed.

Lemma sound_check (m : M VkResult) : sound m -> sound (VK_CHECK_RESULT m).
Proof.
  intros Hm. unfold VK_CHECK_RESULT. apply sound_bind; [exact Hm|].
  intros res. destruct (res =? VK_SUCCESS); [apply sound_ret | apply sound_stop].
Qed.

Lemma sound_api_into env v c : plain c = true -> sound (api_into env v c).
Proof.
  intros Hc. unfold api_into.
  apply sound_bind; [apply sound_api_out; exact Hc|]. intros rh.
  apply sound_bind; [apply sound_set|]. intros _. apply sound_ret.
Qed.

Lemma sound_checked_local env c : plain c = true -> sound (checked_local env c).
Proof.
  intros Hc. unfold checked_local.
  apply sound_bind; [apply sound_api_out; exact Hc|]. intros rh.
  apply sound_bind; [apply sound_check, sound_ret|]. intros _. apply sound_ret.
Qed.

Lemma sound_for_each {A} (l : list A) (body : A -> M unit) :
  (forall a, sound (body a)) -> sound (for_each l body).
Proof.
  intros Hb. induction l as [|a l IH]; cbn [for_each fold_right].
  - apply sound_ret.
  - apply sound_bind; [apply Hb|]. intros _. exact IH.
Qed.

(** The block submitWork and flushCommandBuffer share. *)
Lemma sound_fenced_submit env flags q cmd timeout {A} (k : Z -> M A) :
  0 <= timeout < 2 ^ 64 ->
  (forall fence, sound (k fence)) ->
  sound (fence <- checked_local env (vkCreateFence flags) ;;
         VK_CHECK_RESULT (queue_submit env q cmd fence) ;;
         VK_CHECK_RESULT (api env (vkWaitForFences fence true timeout)) ;;
         k fence).
Proof.
  intros Ht Hk s H. pose proof (good_failed_wait _ H) as Hw.
  destruct s as [th ubo sm im lg me]. cbn [log] in *. exec.
  answer_at env (List.length lg) E1; exec;
    [|apply good_plain; [reflexivity|exact H]].
  destruct H as (Hf & Ha & _).
  answer_at env (S (List.length lg)) E2; exec.
  2:{ apply (proj2 (Z.eqb_neq _ _)) in E2.
      unfold good.
      cbn [fenced accepted_submission failed_wait call answer out stop_of fst snd log].
      rewrite Ha, Hw, E2.
      repeat split; auto. exists flags. reflexivity. }
  answer_at env (S (S (List.length lg))) E3; exec.
  - apply Hk. unfold good.
    cbn [fenced accepted_submission failed_wait call answer out log].
    rewrite Ha, Hw, E2, E3. cbn [Z.eqb VK_SUCCESS].
    repeat split; auto; try (exists flags; reflexivity).
    exists timeout. auto.
  - apply (proj2 (Z.eqb_neq _ _)) in E3.
    unfold good.
    cbn [fenced accepted_submission failed_wait call answer out stop_of fst snd log].
    rewrite Ha, Hw, E2, E3. cbn [Z.eqb VK_SUCCESS].
    repeat split; auto; try (exists flags; reflexivity).
    exists timeout. auto.
Qed.

Lemma sound_submitWork env cmd q : sound (submitWork env cmd q).
Proof.
  unfold submitWork. apply sound_fenced_submit.
  - unfold UINT64_MAX. lia.
  - intros fence. apply sound_void. reflexivity.
Qed.

Lemma sound_flushCommandBuffer env cmd q pool free :
  sound (flushCommandBuffer env cmd q pool free).
Proof.
  unfold flushCommandBuffer. destruct (cmd =? VK_NULL_HANDLE); [apply sound_ret|].
  apply sound_bind; [apply sound_check, sound_api; reflexivity|]. intros _.
  apply sound_fenced_submit.
  - apply Z.mod_pos_bound. lia.
  - intros fence. apply sound_bind; [apply sound_void; reflexivity|]. intros _.
    destruct free; [apply sound_void; reflexivity | apply sound_ret].
Qed.

Create HintDb sound.
#[local] Hint Resolve sound_ret sound_stop sound_get sound_get_state sound_set
  sound_memcpy sound_submitWork sound_flushCommandBuffer : sound.

(** Walks through a program built from the monad's operations. *)
Ltac sound_step :=
  first
    [ solve [auto with sound]
    | apply sound_bind; [|intros ?]
    | apply sound_check
    | apply sound_api; reflexivity
    | apply sound_api_out; reflexivity
    | apply sound_api_into; reflexivity
    | apply sound_checked_local; reflexivity
    | apply sound_void; reflexivity
    | apply sound_void_out; reflexivity
    | apply sound_modify; intros ?; reflexivity
    | apply sound_for_each; intros ?
    | match goal with
      | |- sound (if ?b then _ else _) => destruct b
      | |- sound (match ?x with _ => _ end) => destruct x
      end ].

Ltac sound_walk := cbv beta zeta; repeat sound_step.

Lemma sound_createCommandBuffer_in_pool env pool begin :
  sound (createCommandBuffer_in_pool env pool begin).
Proof. unfold createCommandBuffer_in_pool. sound_walk. Qed.

Lemma sound_call_getMemoryTypeIndex env bits props :
  sound (call_getMemoryTypeIndex env bits props).
Proof. unfold call_getMemoryTypeIndex. sound_walk. Qed.

#[local] Hint Resolve sound_createCommandBuffer_in_pool
  sound_call_getMemoryTypeIndex : sound.

Lemma sound_createBuffer env usage props buffer mem size data :
  sound (createBuffer env usage props buffer mem size data).
Proof. unfold createBuffer. sound_walk. Qed.

#[local] Hint Resolve sound_createBuffer : sound.

Lemma sound_createInstance env : sound (createInstance env).
Proof. unfold createInstance. sound_walk. Qed.

Lemma sound_setupDebugMessenger env : sound (setupDebugMessenger env).
Proof. unfold setupDebugMessenger. sound_walk. Qed.

Lemma sound_pickPhysicalDevice env : sound (pickPhysicalDevice env).
Proof. unfold pickPhysicalDevice. sound_walk. Qed.

Lemma sound_createLogicalDevice env : sound (createLogicalDevice env).
Proof. unfold createLogicalDevice. sound_walk. Qed.

Lemma sound_createCommandPool env : sound (createCommandPool env).
Proof. unfold createCommandPool. sound_walk. Qed.

Lemma sound_staged_upload env cmd usage buffer mem size data :
  sound (staged_upload env cmd usage buffer mem size data).
Proof. unfold staged_upload. sound_walk. Qed.

#[local] Hint Resolve sound_staged_upload : sound.

Lemma sound_prepareSimpleVertexAndIndexBuffers env :
  sound (prepareSimpleVertexAndIndexBuffers env).
Proof. unfold prepareSimpleVertexAndIndexBuffers. sound_walk. Qed.

Lemma sound_prepareTextureVertexAndIndexBuffers env :
  sound (prepareTextureVertexAndIndexBuffers env).
Proof. unfold prepareTextureVertexAndIndexBuffers. sound_walk. Qed.

Lemma sound_loadTextureFromFile env fname : sound (loadTextureFromFile env fname).
Proof. unfold loadTextureFromFile. sound_walk. Qed.

Lemma sound_createFramebufferAttachments env :
  sound (createFramebufferAttachments env).
Proof. unfold createFramebufferAttachments. sound_walk. Qed.

Lemma sound_createRenderPass env : sound (createRenderPass env).
Proof. unfold createRenderPass. sound_walk. Qed.

Lemma sound_prepareGraphicsPipelineSimple env :
  sound (prepareGraphicsPipelineSimple env).
Proof. unfold prepareGraphicsPipelineSimple. sound_walk. Qed.

Lemma sound_prepareGraphicsPipelineTexture env :
  sound (prepareGraphicsPipelineTexture env).
Proof. unfold prepareGraphicsPipelineTexture. sound_walk. Qed.

Lemma sound_begin_frame cmd : sound (begin_frame cmd).
Proof. unfold begin_frame. sound_walk. Qed.

#[local] Hint Resolve sound_begin_frame : sound.

Lemma sound_createCommandBuffer env : sound (createCommandBuffer env).
Proof. unfold createCommandBuffer. sound_walk. Qed.

Lemma sound_createCommandBufferTexture env : sound (createCommandBufferTexture env).
Proof. unfold createCommandBufferTexture. sound_walk. Qed.

Lemma sound_saveFramebufferImage env fname : sound (saveFramebufferImage env fname).
Proof. unfold saveFramebufferImage, insertImageMemoryBarrier. sound_walk. Qed.

#[local] Hint Resolve sound_createInstance sound_setupDebugMessenger
  sound_pickPhysicalDevice sound_createLogicalDevice sound_createCommandPool
  sound_prepareSimpleVertexAndIndexBuffers sound_prepareTextureVertexAndIndexBuffers
  sound_loadTextureFromFile sound_createFramebufferAttachments
  sound_createRenderPass sound_prepareGraphicsPipelineSimple
  sound_prepareGraphicsPipelineTexture sound_createCommandBuffer
  sound_createCommandBufferTexture sound_saveFramebufferImage : sound.






(* ================================================================== *)
(** * Further properties *)
(* ================================================================== *)

(** ** getMemoryTypeIndex: range and monotonicity *)

Lemma getMemoryTypeIndex_loop_cases (properties : Z) (types : list Z) :
  forall i type_bits,
    getMemoryTypeIndex_loop i types type_bits properties = 0
    \/ exists k, (k < List.length types)%nat
         /\ getMemoryTypeIndex_loop i types type_bits properties = i + Z.of_nat k
         /\ Z.testbit type_bits (Z.of_nat k) = true
         /\ Z.land (nth k types 0) properties = properties
         /\ forall j, (j < k)%nat ->
              Z.testbit type_bits (Z.of_nat j) = true ->
              Z.land (nth j types 0) properties <> properties.
Proof.
  induction types as [|flags rest IH]; intros i type_bits; cbn [getMemoryTypeIndex_loop].
  - left. reflexivity.
  - rewrite land_1_testbit.
    destruct (Z.testbit type_bits 0) eqn:Hbit;
      [destruct (Z.land flags properties =? properties) eqn:Hfl|]; cbn [andb].
    + right. exists O. apply Z.eqb_eq in Hfl. cbn [List.length nth].
      repeat split; try lia; auto.
    + apply Z.eqb_neq in Hfl.
      destruct (IH (i + 1) (Z.shiftr type_bits 1)) as [H0|(k & Hk & Hr & Hb & Hp & Hmin)];
        [left; exact H0|].
      right. exists (S k). rewrite Z.shiftr_spec in Hb by lia.
      split; [cbn [List.length]; lia|]. split; [rewrite Hr; lia|].
      split; [rewrite <- Hb; f_equal; lia|]. split; [exact Hp|].
      intros [|j] Hj Hbj; [exact Hfl|]. cbn [nth]. apply Hmin; [lia|].
      rewrite Z.shiftr_spec by lia. rewrite <- Hbj. f_equal. lia.
    + destruct (IH (i + 1) (Z.shiftr type_bits 1)) as [H0|(k & Hk & Hr & Hb & Hp & Hmin)];
        [left; exact H0|].
      right. exists (S k). rewrite Z.shiftr_spec in Hb by lia.
      split; [cbn [List.length]; lia|]. split; [rewrite Hr; lia|].
      split; [rewrite <- Hb; f_equal; lia|]. split; [exact Hp|].
      intros [|j] Hj Hbj; [change (Z.of_nat 0) with 0 in Hbj; congruence|].
      cbn [nth]. apply Hmin; [lia|].
      rewrite Z.shiftr_spec by lia. rewrite <- Hbj. f_equal. lia.
Qed.

Lemma land_subset_trans flags a b :
  flags_subset a b -> Z.land flags b = b -> Z.land flags a = a.
Proof.
  unfold flags_subset. intros Hab Hb.
  rewrite <- Hab at 1. rewrite Z.land_assoc, Hb. exact Hab.
Qed.

(** X1.  With at least one memory type, the index getMemoryTypeIndex returns
    is an index of the table, also when it is the fall-back 0; and asking
    for fewer property flags never moves the result up: when some type
    qualifies for [properties], the type returned for a subset of these flags
    has an index that is not larger. *)
Theorem getMemoryTypeIndex_in_range_and_monotone
        (memoryTypes : list Z) (type_bits properties relaxed : Z) :
  memoryTypes <> [] ->
  flags_subset relaxed properties ->
  0 <= getMemoryTypeIndex memoryTypes type_bits properties
       < Z.of_nat (List.length memoryTypes)
  /\ ((exists i, qualifies memoryTypes type_bits properties i) ->
      getMemoryTypeIndex memoryTypes type_bits relaxed
      <= getMemoryTypeIndex memoryTypes type_bits properties).
Proof.
  intros Hne Hsub. unfold getMemoryTypeIndex. split.
  - destruct (getMemoryTypeIndex_loop_cases properties memoryTypes 0 type_bits)
      as [H0|(k & Hk & Hr & _)].
    + rewrite H0. destruct memoryTypes; [congruence|]. cbn [List.length]. lia.
    + rewrite Hr. lia.
  - intros [i ((Hi0 & Hi1) & Hb & Hp)].
    destruct (getMemoryTypeIndex_loop_spec properties memoryTypes 0 type_bits)
      as [Hfound _].
    destruct (Hfound (Z.to_nat i)) as (k0 & Hle & Hres & Hlt & Hb0 & Hp0);
      [lia | rewrite Z2Nat.id by lia; exact Hb | exact Hp |].
    destruct (getMemoryTypeIndex_loop_spec relaxed memoryTypes 0 type_bits)
      as [Hfound' _].
    destruct (Hfound' k0) as (k1 & Hle1 & Hres1 & _);
      [exact Hlt | exact Hb0 | eapply land_subset_trans; eauto |].
    rewrite Hres, Hres1. lia.
Qed.

Lemma getMemoryTypeIndex_in_range_and_monotone_witness :
  0 <= getMemoryTypeIndex [1; 6; 7] 6 6 < Z.of_nat (List.length [1; 6; 7])
  /\ ((exists i, qualifies [1; 6; 7] 6 6 i) ->
      getMemoryTypeIndex [1; 6; 7] 6 2 <= getMemoryTypeIndex [1; 6; 7] 6 6).
Proof.
  apply (getMemoryTypeIndex_in_range_and_monotone [1; 6; 7] 6 6 2).
  - discriminate.
  - reflexivity.
Defined.

(** ** The PPM writer: what it reads and what the swizzle does *)

(** X7.  An image without columns or without rows yields the header alone:
    the loops of saveFramebufferImage write nothing for a width or a height
    that is zero or negative. *)
Theorem ppm_file_empty_image (mem : Memory) (swizzle : bool) (w h p a : Z) :
  w <= 0 \/ h <= 0 ->
  ppm_file mem swizzle w h p a = ppm_header w h.
Proof.
  intros Hwh. unfold ppm_file.
  assert (Hrows : write_rows mem swizzle w p a (Z.to_nat h) = []).
  { destruct Hwh as [Hw|Hh].
    - replace (Z.to_nat w) with O by lia.
      apply length_zero_iff_nil. rewrite write_rows_length.
      replace (Z.to_nat w) with O by lia. lia.
    - replace (Z.to_nat h) with O by lia. reflexivity. }
  rewrite Hrows. apply app_nil_r.
Qed.

Lemma ppm_file_empty_image_witness :
  ppm_file alpha_only false 0 5 16 0 = ppm_header 0 5.
Proof.
  apply (ppm_file_empty_image alpha_only false 0 5 16 0). left. lia.
Defined.

Lemma flat_map_agree {A B} (f g : A -> list B) (l : list A) :
  (forall a, In a l -> f a = g a) -> flat_map f l = flat_map g l.
Proof.
  induction l as [|a l IH]; intros H; [reflexivity|]. cbn [flat_map].
  rewrite (H a) by (left; reflexivity). rewrite IH; [reflexivity|].
  intros b Hb. apply H. right. exact Hb.
Qed.

(** X8.  The file depends on the first three bytes of every pixel of the
    visible window only: two memories that agree on the bytes at
    [a + y * p + 4 * x + c], for [x < w], [y < h] and [c < 3], give the same
    file.  The fourth byte of a pixel and the padding of a row are never
    read. *)
Theorem ppm_file_reads_rgb_only (mem mem' : Memory) (swizzle : bool) (w h p a : Z) :
  (forall x y c, 0 <= x < w -> 0 <= y < h -> 0 <= c < 3 ->
                 mem (a + y * p + 4 * x + c) = mem' (a + y * p + 4 * x + c)) ->
  ppm_file mem swizzle w h p a = ppm_file mem' swizzle w h p a.
Proof.
  intros Hsame. unfold ppm_file. f_equal. rewrite !write_rows_packed.
  apply flat_map_agree. intros y Hy. apply in_seq in Hy.
  apply flat_map_agree. intros x Hx. apply in_seq in Hx.
  unfold write_pixel.
  pose proof (Hsame (Z.of_nat x) (Z.of_nat y) 0) as H0.
  pose proof (Hsame (Z.of_nat x) (Z.of_nat y) 1) as H1.
  pose proof (Hsame (Z.of_nat x) (Z.of_nat y) 2) as H2.
  rewrite Z.add_0_r in H0.
  rewrite H0, H1, H2 by lia. reflexivity.
Qed.

Lemma ppm_file_reads_rgb_only_witness :
  ppm_file alpha_only false 2 2 16 0 = ppm_file (fun _ => x00) false 2 2 16 0.
Proof.
  apply (ppm_file_reads_rgb_only alpha_only (fun _ => x00) false 2 2 16 0).
  intros x y c Hx Hy Hc. unfold alpha_only.
  assert (Hx' : x = 0 \/ x = 1) by lia.
  assert (Hy' : y = 0 \/ y = 1) by lia.
  assert (Hc' : c = 0 \/ c = 1 \/ c = 2) by lia.
  destruct Hx' as [-> | ->], Hy' as [-> | ->], Hc' as [-> | [-> | ->]];
    reflexivity.
Defined.

(** X9.  With the swizzle on, the three bytes of every pixel appear in the
    file in the reverse of the order they have with the swizzle off; pixels
    and rows keep their places. *)
Theorem ppm_swizzle_reverses_each_pixel (mem : Memory) (w h p a : Z) :
  forall x y c d,
    0 <= x < w -> 0 <= y < h -> 0 <= c < 3 ->
    nth (Z.to_nat (3 * (y * w + x) + c))
        (write_rows mem true w p a (Z.to_nat h)) d
    = nth (Z.to_nat (3 * (y * w + x) + (2 - c)))
          (write_rows mem false w p a (Z.to_nat h)) d.
Proof.
  intros x y c d Hx Hy Hc.
  replace (Z.to_nat (3 * (y * w + x) + c))
    with (3 * (Z.to_nat y * Z.to_nat w + Z.to_nat x) + Z.to_nat c)%nat by nia.
  replace (Z.to_nat (3 * (y * w + x) + (2 - c)))
    with (3 * (Z.to_nat y * Z.to_nat w + Z.to_nat x) + Z.to_nat (2 - c))%nat by nia.
  rewrite !write_rows_nth by lia. unfold write_pixel.
  assert (Hcases : c = 0 \/ c = 1 \/ c = 2) by lia.
  destruct Hcases as [->|[->| ->]]; reflexivity.
Qed.

Lemma ppm_swizzle_reverses_each_pixel_witness :
  nth (Z.to_nat (3 * (1 * 2 + 1) + 0))
      (write_rows (fun i => byte_of_Z i) true 2 16 0 (Z.to_nat 2)) x00
  = nth (Z.to_nat (3 * (1 * 2 + 1) + (2 - 0)))
        (write_rows (fun i => byte_of_Z i) false 2 16 0 (Z.to_nat 2)) x00.
Proof.
  apply (ppm_swizzle_reverses_each_pixel (fun i => byte_of_Z i) 2 2 16 0 1 1 0 x00);
    lia.
Defined.

(** ** createLogicalDevice: the queue family *)

Lemma find_graphics_family_least families : forall i0 i,
  find_graphics_family i0 families = Some i ->
  exists k, i = i0 + Z.of_nat k
    /\ (k < List.length families)%nat
    /\ Z.land (nth k families 0) VK_QUEUE_GRAPHICS_BIT <> 0
    /\ forall j, (j < k)%nat -> Z.land (nth j families 0) VK_QUEUE_GRAPHICS_BIT = 0.
Proof.
  induction families as [|flags rest IH]; intros i0 i H; cbn [find_graphics_family] in H;
    [discriminate|].
  destruct (Z.land flags VK_QUEUE_GRAPHICS_BIT =? 0) eqn:E; cbn [negb] in H.
  - apply Z.eqb_eq in E. destruct (IH _ _ H) as (k & Hi & Hk & Hg & Hmin).
    exists (S k). split; [lia|]. split; [cbn [List.length]; lia|]. split; [exact Hg|].
    intros [|j] Hj; [exact E|]. cbn [nth]. apply Hmin. lia.
  - apply Z.eqb_neq in E. injection H as <-. exists O.
    split; [lia|]. split; [cbn [List.length]; lia|]. split; [exact E|]. intros j Hj. lia.
Qed.

Lemma find_graphics_family_none families : forall i0,
  find_graphics_family i0 families = None ->
  forall k, (k < List.length families)%nat ->
    Z.land (nth k families 0) VK_QUEUE_GRAPHICS_BIT = 0.
Proof.
  induction families as [|flags rest IH]; intros i0 H k Hk; [inversion Hk|].
  cbn [find_graphics_family] in H.
  destruct (Z.land flags VK_QUEUE_GRAPHICS_BIT =? 0) eqn:E; cbn [negb] in H;
    [|discriminate].
  apply Z.eqb_eq in E. destruct k as [|k]; [exact E|]. cbn [nth].
  apply (IH _ H). cbn [List.length] in Hk. lia.
Qed.

(** X2.  When some queue family has the graphics bit, a createLogicalDevice
    that returns has chosen the first such family: its index is stored in
    queue_family_index, the device is created with one queue of that family,
    and queue 0 of that family is fetched.  The family properties are queried
    twice (count, then data) before that. *)
Theorem createLogicalDevice_selects_first_graphics_family env s s' (k : nat) :
  (k < List.length (queueFlags env))%nat ->
  Z.land (nth k (queueFlags env) 0) VK_QUEUE_GRAPHICS_BIT <> 0 ->
  createLogicalDevice env s = (Returned tt, s') ->
  let n := List.length (log s) in
  exists i : nat,
    (i <= k)%nat
    /\ Z.land (nth i (queueFlags env) 0) VK_QUEUE_GRAPHICS_BIT <> 0
    /\ (forall j, (j < i)%nat ->
          Z.land (nth j (queueFlags env) 0) VK_QUEUE_GRAPHICS_BIT = 0)
    /\ this s' queue_family_index = Z.of_nat i
    /\ this s' device = handle env (2 + n)
    /\ this s' queue = handle env (3 + n)
    /\ log s'
       = [ Ev (vkGetDeviceQueue (Z.of_nat i) 0) VK_SUCCESS (handle env (3 + n));
           Ev (vkCreateDevice (this s physical_device) 1
                 {| sType := VK_STRUCTURE_TYPE_DEVICE_QUEUE_CREATE_INFO;
                    queueFamilyIndex := Z.of_nat i; queueCount := 1 |})
              VK_SUCCESS (handle env (2 + n));
           Ev (vkGetPhysicalDeviceQueueFamilyProperties (this s physical_device))
              VK_SUCCESS 0;
           Ev (vkGetPhysicalDeviceQueueFamilyProperties (this s physical_device))
              VK_SUCCESS 0 ]
         ++ log s.
Proof.
  intros Hk Hg H n.
  destruct (find_graphics_family 0 (queueFlags env)) as [i|] eqn:Hfind.
  2:{ exfalso. apply Hg. eapply find_graphics_family_none; eauto. }
  destruct (find_graphics_family_least _ _ _ Hfind) as (i' & Hi & Hlt & Hgi & Hmin).
  cbn in Hi. subst i.
  exists i'. split.
  { destruct (Nat.le_gt_cases i' k) as [Hle|Hgt]; [exact Hle|].
    exfalso. apply Hg. apply Hmin. exact Hgt. }
  split; [exact Hgi|]. split; [exact Hmin|].
  destruct s as [th ubo sm im lg me]. subst n. cbn [log this] in *.
  unfold createLogicalDevice in H. exec_in H. rewrite Hfind in H. exec_in H.
  passed H. injection H as <-. cbn [this log]. rewrite E.
  repeat split; reflexivity.
Qed.

Lemma createLogicalDevice_selects_first_graphics_family_witness :
  let s' := snd (createLogicalDevice env_ok s0) in
  let n := List.length (log s0) in
  exists i : nat,
    (i <= 1)%nat
    /\ Z.land (nth i (queueFlags env_ok) 0) VK_QUEUE_GRAPHICS_BIT <> 0
    /\ (forall j, (j < i)%nat ->
          Z.land (nth j (queueFlags env_ok) 0) VK_QUEUE_GRAPHICS_BIT = 0)
    /\ this s' queue_family_index = Z.of_nat i
    /\ this s' device = handle env_ok (2 + n)
    /\ this s' queue = handle env_ok (3 + n)
    /\ log s'
       = [ Ev (vkGetDeviceQueue (Z.of_nat i) 0) VK_SUCCESS (handle env_ok (3 + n));
           Ev (vkCreateDevice (this s0 physical_device) 1
                 {| sType := VK_STRUCTURE_TYPE_DEVICE_QUEUE_CREATE_INFO;
                    queueFamilyIndex := Z.of_nat i; queueCount := 1 |})
              VK_SUCCESS (handle env_ok (2 + n));
           Ev (vkGetPhysicalDeviceQueueFamilyProperties (this s0 physical_device))
              VK_SUCCESS 0;
           Ev (vkGetPhysicalDeviceQueueFamilyProperties (this s0 physical_device))
              VK_SUCCESS 0 ]
         ++ log s0.
Proof.
  apply (createLogicalDevice_selects_first_graphics_family
           env_ok s0 (snd (createLogicalDevice env_ok s0)) 1).
  - vm_compute. lia.
  - vm_compute. discriminate.
  - vm_compute. reflexivity.
Defined.

(** ** createInstance and setupDebugMessenger without the validation layer *)

(** X3.  In a build without DEBUG, and in a DEBUG build whose instance does
    not offer VK_LAYER_KHRONOS_validation, createInstance followed by
    setupDebugMessenger creates the instance with no layer and no extension,
    registers no debug callback, and ends exactly as vkCreateInstance
    answers: the missing layer is reported, not treated as an error.  A DEBUG
    build has enumerated the layers (count, then data) before. *)
Theorem missing_validation_layer_is_not_fatal env s :
  DEBUG env && existsb (String.eqb validation_layer) (instance_layer_names env)
  = false ->
  let r := (createInstance env ;; setupDebugMessenger env) s in
  let queried :=
    if DEBUG env
    then [ Ev vkEnumerateInstanceLayerProperties
              (status env (1 + List.length (log s))) 0;
           Ev vkEnumerateInstanceLayerProperties
              (status env (List.length (log s))) 0 ]
    else [] in
  let n := List.length (queried ++ log s) in
  log (snd r) = Ev (vkCreateInstance 0 0) (status env n) (handle env n)
                :: queried ++ log s
  /\ fst r = (if status env n =? VK_SUCCESS then Returned tt
              else Stopped (Fatal (status env n))).
Proof.
  intros Hoff. destruct s as [th ubo sm im lg me]. cbn [log].
  unfold createInstance, setupDebugMessenger. exec.
  destruct (DEBUG env) eqn:HD; cbn [andb] in Hoff; exec.
  - rewrite Hoff. rewrite ?upd_same. cbn.
    destruct (status env (S (S (List.length lg))) =? VK_SUCCESS); exec;
      rewrite ?upd_other by discriminate; rewrite ?upd_same; cbn; auto.
  - cbn. destruct (status env (List.length lg) =? VK_SUCCESS); exec; cbn; auto.
Qed.

Lemma missing_validation_layer_is_not_fatal_witness :
  log (snd ((createInstance env_no_layers ;; setupDebugMessenger env_no_layers) s0))
  = [ Ev (vkCreateInstance 0 0) VK_SUCCESS 4098;
      Ev vkEnumerateInstanceLayerProperties VK_SUCCESS 0;
      Ev vkEnumerateInstanceLayerProperties VK_SUCCESS 0 ]
  /\ fst ((createInstance env_no_layers ;; setupDebugMessenger env_no_layers) s0)
     = Returned tt.
Proof.
  apply (missing_validation_layer_is_not_fatal env_no_layers s0).
  vm_compute. reflexivity.
Defined.

(** ** flushCommandBuffer *)

(** X4.  flushCommandBuffer does nothing at all for a null command buffer.
    Otherwise a call that returns has ended the recording, created a fence
    with the flags VK_FLAGS_NONE, submitted the buffer with that fence to the
    queue it was given, waited for the fence with DEFAULT_FENCE_TIMEOUT,
    destroyed the fence and, when [free] is set, freed the buffer in [pool],
    in this order; the object's members are unchanged and the memory is what
    the device has made of it during that submission. *)
Theorem flushCommandBuffer_contract env cmd q pool free s s' :
  flushCommandBuffer env cmd q pool free s = (Returned tt, s') ->
  let n := List.length (log s) in
  if cmd =? VK_NULL_HANDLE
  then s' = s
  else
    let fence := handle env (1 + n) in
    this s' = this s
    /\ memory s' = gpu env (2 + n) (memory s)
    /\ log s'
       = (if free then [ Ev (vkFreeCommandBuffers pool cmd) VK_SUCCESS 0 ] else [])
         ++ [ Ev (vkDestroyFence fence) VK_SUCCESS 0;
              Ev (vkWaitForFences fence true (DEFAULT_FENCE_TIMEOUT env mod 2 ^ 64))
                 VK_SUCCESS 0;
              Ev (vkQueueSubmit q cmd fence) VK_SUCCESS 0;
              Ev (vkCreateFence (VK_FLAGS_NONE env)) VK_SUCCESS fence;
              Ev (vkEndCommandBuffer cmd) VK_SUCCESS 0 ]
         ++ log s.
Proof.
  destruct s as [th ubo sm im lg me]. intros H n. subst n. cbn [log this memory].
  unfold flushCommandBuffer in H.
  destruct (cmd =? VK_NULL_HANDLE); exec_in H.
  - injection H as <-. reflexivity.
  - repeat passed H. destruct free; exec_in H; injection H as <-;
      cbn [this log memory]; rewrite E, E0, E1, E2;
      change (VK_SUCCESS =? VK_SUCCESS) with true; cbn [app];
      repeat split; reflexivity.
Qed.

Lemma flushCommandBuffer_contract_witness :
  let s' := snd (flushCommandBuffer env_counting 5 6 7 true s0) in
  this s' = this s0
  /\ memory s' = gpu env_counting 2 (memory s0)
  /\ log s'
     = [ Ev (vkFreeCommandBuffers 7 5) VK_SUCCESS 0;
         Ev (vkDestroyFence 4097) VK_SUCCESS 0;
         Ev (vkWaitForFences 4097 true 100000000000) VK_SUCCESS 0;
         Ev (vkQueueSubmit 6 5 4097) VK_SUCCESS 0;
         Ev (vkCreateFence 0) VK_SUCCESS 4097;
         Ev (vkEndCommandBuffer 5) VK_SUCCESS 0 ].
Proof.
  apply (flushCommandBuffer_contract env_counting 5 6 7 true s0
           (snd (flushCommandBuffer env_counting 5 6 7 true s0))).
  vm_compute. reflexivity.
Defined.

(** ** saveFramebufferImage: its checks and the pixels it reads *)




(** ** Footprints: the calls a computation makes and the members it keeps *)

Section Footprint.

Variable allowed : Call -> bool.
Variable kept : Var -> bool.

Lemma stays_refl s : stays allowed kept s s.
Proof. split; [exists []; split; reflexivity | reflexivity]. Qed.

Lemma stays_trans s1 s2 s3 :
  stays allowed kept s1 s2 -> stays allowed kept s2 s3 -> stays allowed kept s1 s3.
Proof.
  intros [(n1 & L1 & F1) K1] [(n2 & L2 & F2) K2]. split.
  - exists (n2 ++ n1). rewrite L2, L1, forallb_app, F1, F2, app_assoc. auto.
  - intros v Hv. rewrite K2, K1 by exact Hv. reflexivity.
Qed.

Lemma stays_event s c r o :
  allowed c = true -> stays allowed kept s (with_log (Ev c r o :: log s) s).
Proof.
  intros Hc. split; [|reflexivity].
  exists [Ev c r o]. cbn. rewrite Hc. auto.
Qed.

Lemma confined_ret {A} (a : A) : confined allowed kept (ret a).
Proof. intros s. apply stays_refl. Qed.

Lemma confined_stop {A} why : confined allowed kept (@stop A why).
Proof. intros s. apply stays_refl. Qed.

Lemma confined_get v : confined allowed kept (get v).
Proof. intros s. apply stays_refl. Qed.

Lemma confined_get_state : confined allowed kept get_state.
Proof. intros s. apply stays_refl. Qed.

Lemma confined_set v x : kept v = false -> confined allowed kept (set v x).
Proof.
  intros Hv s. split; [exists []; split; reflexivity|].
  intros v' Hv'. cbn. unfold upd.
  destruct (Var_eq_dec v v') as [<-|_]; [congruence|reflexivity].
Qed.

Lemma confined_modify f :
  (forall s, log (f s) = log s /\ this (f s) = this s) ->
  confined allowed kept (modify f).
Proof.
  intros Hf s. destruct (Hf s) as [Hl Ht]. split.
  - exists []. cbn. rewrite Hl. auto.
  - intros v _. cbn. rewrite Ht. reflexivity.
Qed.

Lemma confined_bind {A B} (m : M A) (f : A -> M B) :
  confined allowed kept m -> (forall a, confined allowed kept (f a)) ->
  confined allowed kept (bind m f).
Proof.
  intros Hm Hf s. specialize (Hm s). unfold bind.
  destruct (m s) as [[a|why] s1]; cbn [snd] in *.
  - eapply stays_trans; [exact Hm | apply Hf].
  - exact Hm.
Qed.

Lemma confined_api env c : allowed c = true -> confined allowed kept (api env c).
Proof. intros Hc s. apply stays_event, Hc. Qed.

Lemma confined_api_out env c : allowed c = true -> confined allowed kept (api_out env c).
Proof. intros Hc s. apply stays_event, Hc. Qed.

Lemma confined_void c : allowed c = true -> confined allowed kept (void c).
Proof. intros Hc s. apply stays_event, Hc. Qed.

Lemma confined_void_out env c :
  allowed c = true -> confined allowed kept (void_out env c).
Proof. intros Hc s. apply stays_event, Hc. Qed.

Lemma confined_queue_submit env q cmd fence :
  allowed (vkQueueSubmit q cmd fence) = true ->
  confined allowed kept (queue_submit env q cmd fence).
Proof.
  intros Hc s. split; [|reflexivity].
  exists [Ev (vkQueueSubmit q cmd fence) (status env (List.length (log s))) 0].
  split; [reflexivity|]. cbn [forallb call]. rewrite Hc. reflexivity.
Qed.

Lemma confined_memcpy p bytes :
  allowed (memcpy p bytes) = true -> confined allowed kept (do_memcpy p bytes).
Proof.
  intros Hc s. split; [|reflexivity].
  exists [Ev (memcpy p bytes) VK_SUCCESS 0].
  split; [reflexivity|]. cbn [forallb call]. rewrite Hc. reflexivity.
Qed.

Lemma confined_check (m : M VkResult) :
  confined allowed kept m -> confined allowed kept (VK_CHECK_RESULT m).
Proof.
  intros Hm. unfold VK_CHECK_RESULT. apply confined_bind; [exact Hm|].
  intros res. destruct (res =? VK_SUCCESS); [apply confined_ret | apply confined_stop].
Qed.

Lemma confined_for_each {A} (l : list A) (body : A -> M unit) :
  (forall a, confined allowed kept (body a)) -> confined allowed kept (for_each l body).
Proof.
  intros Hb. induction l as [|a l IH]; cbn [for_each fold_right].
  - apply confined_ret.
  - apply confined_bind; [apply Hb|]. intros _. exact IH.
Qed.

End Footprint.

Create HintDb confined.

Ltac side_condition := first [reflexivity | assumption].

(** One step through a program built from the monad's operations. *)
Ltac confined_step :=
  lazymatch goal with
  | |- confined _ _ (bind _ _) => apply confined_bind; [|intros ?]
  | |- confined _ _ (ret _) => apply confined_ret
  | |- confined _ _ (stop _) => apply confined_stop
  | |- confined _ _ (get _) => apply confined_get
  | |- confined _ _ get_state => apply confined_get_state
  | |- confined _ _ (set _ _) => apply confined_set; side_condition
  | |- confined _ _ (modify _) =>
      apply confined_modify; intros ?; split; reflexivity
  | |- confined _ _ (VK_CHECK_RESULT _) => apply confined_check
  | |- confined _ _ (api _ _) => apply confined_api; side_condition
  | |- confined _ _ (api_out _ _) => apply confined_api_out; side_condition
  | |- confined _ _ (void _) => apply confined_void; side_condition
  | |- confined _ _ (void_out _ _) => apply confined_void_out; side_condition
  | |- confined _ _ (queue_submit _ _ _ _) =>
      apply confined_queue_submit; side_condition
  | |- confined _ _ (do_memcpy _ _) => apply confined_memcpy; side_condition
  | |- confined _ _ (api_into _ _ _) => unfold api_into
  | |- confined _ _ (checked_local _ _) => unfold checked_local
  | |- confined _ _ (for_each _ _) => apply confined_for_each; intros ?
  | |- confined _ _ (if ?b then _ else _) => destruct b
  | |- confined _ _ (match ?x with _ => _ end) => destruct x
  | |- confined _ _ _ => solve [auto with confined]
  end.

Ltac confined_walk := cbv beta zeta; repeat confined_step.

(** *** Device bootstrap is quiet *)

Lemma quiet_createInstance env : confined quiet_call extent (createInstance env).
Proof. unfold createInstance. confined_walk. Qed.

Lemma quiet_setupDebugMessenger env :
  confined quiet_call extent (setupDebugMessenger env).
Proof. unfold setupDebugMessenger. confined_walk. Qed.

Lemma quiet_pickPhysicalDevice env :
  confined quiet_call extent (pickPhysicalDevice env).
Proof. unfold pickPhysicalDevice. confined_walk. Qed.

Lemma quiet_createLogicalDevice env :
  confined quiet_call extent (createLogicalDevice env).
Proof. unfold createLogicalDevice. confined_walk. Qed.

Lemma quiet_createCommandPool env :
  confined quiet_call extent (createCommandPool env).
Proof. unfold createCommandPool. confined_walk. Qed.

(** *** Nothing before saveFramebufferImage writes a file or resizes *)

Lemma before_readback_submitWork env cmd q :
  confined no_file extent (submitWork env cmd q).
Proof. unfold submitWork. confined_walk. Qed.

Lemma before_readback_flushCommandBuffer env cmd q pool free :
  confined no_file extent (flushCommandBuffer env cmd q pool free).
Proof. unfold flushCommandBuffer. confined_walk. Qed.

Lemma before_readback_createCommandBuffer_in_pool env pool begin :
  confined no_file extent (createCommandBuffer_in_pool env pool begin).
Proof. unfold createCommandBuffer_in_pool. confined_walk. Qed.

Lemma before_readback_call_getMemoryTypeIndex env bits props :
  confined no_file extent (call_getMemoryTypeIndex env bits props).
Proof. unfold call_getMemoryTypeIndex. confined_walk. Qed.

#[local] Hint Resolve before_readback_submitWork before_readback_flushCommandBuffer
  before_readback_createCommandBuffer_in_pool before_readback_call_getMemoryTypeIndex
  : confined.

Lemma before_readback_createBuffer env usage props buffer mem size data :
  extent buffer = false -> extent mem = false ->
  confined no_file extent (createBuffer env usage props buffer mem size data).
Proof.
  intros Hb Hm. unfold createBuffer. confined_walk.
Qed.

Ltac upload_walk :=
  cbv beta zeta;
  repeat first
    [ lazymatch goal with
      | |- confined _ _ (createBuffer _ _ _ _ _ _ _) =>
          apply before_readback_createBuffer; first [reflexivity | assumption]
      end
    | confined_step ].

Lemma before_readback_staged_upload env cmd usage buffer mem size data :
  extent buffer = false -> extent mem = false ->
  confined no_file extent (staged_upload env cmd usage buffer mem size data).
Proof.
  intros Hb Hm. unfold staged_upload. upload_walk.
Qed.

Lemma before_readback_createInstance env :
  confined no_file extent (createInstance env).
Proof. unfold createInstance. confined_walk. Qed.

Lemma before_readback_setupDebugMessenger env :
  confined no_file extent (setupDebugMessenger env).
Proof. unfold setupDebugMessenger. confined_walk. Qed.

Lemma before_readback_pickPhysicalDevice env :
  confined no_file extent (pickPhysicalDevice env).
Proof. unfold pickPhysicalDevice. confined_walk. Qed.

Lemma before_readback_createLogicalDevice env :
  confined no_file extent (createLogicalDevice env).
Proof. unfold createLogicalDevice. confined_walk. Qed.

Lemma before_readback_createCommandPool env :
  confined no_file extent (createCommandPool env).
Proof. unfold createCommandPool. confined_walk. Qed.

Lemma before_readback_prepareSimpleVertexAndIndexBuffers env :
  confined no_file extent (prepareSimpleVertexAndIndexBuffers env).
Proof.
  unfold prepareSimpleVertexAndIndexBuffers. cbv beta zeta.
  repeat first [ apply before_readback_staged_upload; reflexivity | confined_step ].
Qed.

Lemma before_readback_prepareTextureVertexAndIndexBuffers env :
  confined no_file extent (prepareTextureVertexAndIndexBuffers env).
Proof.
  unfold prepareTextureVertexAndIndexBuffers. cbv beta zeta.
  repeat first [ apply before_readback_staged_upload; reflexivity | confined_step ].
Qed.

Lemma before_readback_loadTextureFromFile env fname :
  confined no_file extent (loadTextureFromFile env fname).
Proof. unfold loadTextureFromFile. confined_walk. Qed.

Lemma before_readback_createFramebufferAttachments env :
  confined no_file extent (createFramebufferAttachments env).
Proof. unfold createFramebufferAttachments. confined_walk. Qed.

Lemma before_readback_createRenderPass env :
  confined no_file extent (createRenderPass env).
Proof. unfold createRenderPass. confined_walk. Qed.

Lemma before_readback_prepareGraphicsPipelineSimple env :
  confined no_file extent (prepareGraphicsPipelineSimple env).
Proof. unfold prepareGraphicsPipelineSimple. confined_walk. Qed.

Lemma before_readback_prepareGraphicsPipelineTexture env :
  confined no_file extent (prepareGraphicsPipelineTexture env).
Proof.
  unfold prepareGraphicsPipelineTexture. upload_walk.
Qed.

Lemma before_readback_begin_frame cmd : confined no_file extent (begin_frame cmd).
Proof. unfold begin_frame. confined_walk. Qed.

#[local] Hint Resolve before_readback_begin_frame : confined.

Lemma before_readback_createCommandBuffer env :
  confined no_file extent (createCommandBuffer env).
Proof. unfold createCommandBuffer. confined_walk. Qed.

Lemma before_readback_createCommandBufferTexture env :
  confined no_file extent (createCommandBufferTexture env).
Proof. unfold createCommandBufferTexture. confined_walk. Qed.

#[local] Hint Resolve before_readback_createInstance before_readback_setupDebugMessenger
  before_readback_pickPhysicalDevice before_readback_createLogicalDevice
  before_readback_createCommandPool
  before_readback_prepareSimpleVertexAndIndexBuffers
  before_readback_prepareTextureVertexAndIndexBuffers
  before_readback_loadTextureFromFile before_readback_createFramebufferAttachments
  before_readback_createRenderPass before_readback_prepareGraphicsPipelineSimple
  before_readback_prepareGraphicsPipelineTexture before_readback_createCommandBuffer
  before_readback_createCommandBufferTexture : confined.

(** ** What a run that returns leaves behind *)

(** A step of a run [H] known to return that hangs on something else than the
    answer to a checked call: the decoder found the file, and the command
    buffer flushCommandBuffer is given may be null. *)
Ltac unblock H :=
  match type of H with
  | context [VK_SUCCESS =? VK_SUCCESS] =>
      change (VK_SUCCESS =? VK_SUCCESS) with true in H
  | context [match decode ?e ?p with _ => _ end] =>
      destruct (decode e p) as [[[? ?] ?]|]; [|discriminate H]
  | context [handle ?e ?n =? ?z] =>
      destruct (handle e n =? z); exec_in H; try discriminate H
  end; exec_in H.

Ltac settle H := repeat first [ unblock H | passed H ].

Lemma bind_returned {A B} (m : M A) (f : A -> M B) s b s' :
  bind m f s = (Returned b, s') ->
  exists a s1, m s = (Returned a, s1) /\ f a s1 = (Returned b, s').
Proof.
  unfold bind. destruct (m s) as [[a|why] s1]; [eauto|discriminate].
Qed.

Lemma quiet_facts new :
  quiet new ->
  recorded new = []
  /\ created_of is_vkCreateBuffer new = []
  /\ created_of is_vkAllocateMemory new = []
  /\ created_of is_vkCreateImage new = []
  /\ destroyed_buffers new = []
  /\ freed_memory new = []
  /\ destroyed_images new = [].
Proof.
  unfold quiet, recorded, created_of, destroyed_buffers, freed_memory, destroyed_images.
  induction new as [|e new IH]; intros H; [repeat split|].
  cbn [forallb] in H. apply andb_prop in H. destruct H as [He H].
  destruct (IH H) as (I1 & I2 & I3 & I4 & I5 & I6 & I7).
  cbn [rev flat_map]. rewrite map_app, filter_app, I1, I2, I3, I4, I5, I6, I7.
  destruct e as [c r o]. cbn [call answer out map filter] in *.
  destruct c; try discriminate He; repeat split; reflexivity.
Qed.

Lemma accounts_app a b mb gb mm gm mi gi mb' gb' mm' gm' mi' gi' :
  accounts a mb gb mm gm mi gi -> accounts b mb' gb' mm' gm' mi' gi' ->
  accounts (a ++ b) (mb ++ mb') (gb ++ gb') (mm ++ mm') (gm ++ gm')
           (mi ++ mi') (gi ++ gi').
Proof.
  unfold accounts, created_of, destroyed_buffers, freed_memory, destroyed_images.
  intros (<- & <- & <- & <- & <- & <-) (<- & <- & <- & <- & <- & <-).
  rewrite !flat_map_app. repeat split; reflexivity.
Qed.

Lemma accounts_quiet boot : quiet boot -> accounts boot [] [] [] [] [] [].
Proof.
  intros Q. destruct (quiet_facts _ Q) as (_ & ? & ? & ? & ? & ? & ?).
  repeat split; assumption.
Qed.

Lemma recorded_app a b : recorded (a ++ b) = recorded b ++ recorded a.
Proof. unfold recorded. rewrite rev_app_distr, map_app, filter_app. reflexivity. Qed.

(** Every checked call of a run that returned has answered success. *)
Ltac succeeded :=
  repeat match goal with
         | E : status _ _ = VK_SUCCESS |- _ => rewrite ?E; clear E
         end.

(** Runs a function to its end and reads the new events, the members it has
    assigned and the handles it has created off the final state.  The answer
    to a call that is not checked is left open. *)
Ltac run_effect H lg :=
  cbn [is_null] in H; exec_in H; settle H;
  repeat match type of H with
         | context [status ?e ?n =? VK_SUCCESS] =>
             destruct (status e n =? VK_SUCCESS)
         end;
  exec_in H; injection H as <-; cbn [log this]; succeeded;
  give_new_events lg; (split; [reflexivity|]);
  repeat eexists; vm_compute; reflexivity.

Lemma prepareSimpleVertexAndIndexBuffers_effect env s s' :
  prepareSimpleVertexAndIndexBuffers env s = (Returned tt, s') ->
  exists new, log s' = new ++ log s /\
  exists cmd sb1 sm1 vb vm sb2 sm2 ib im,
    this s'
       = upd index_memory im (upd index_buffer ib
           (upd staging_memory sm2 (upd staging_buffer sb2
             (upd vertex_memory vm (upd vertex_buffer vb
               (upd staging_memory sm1 (upd staging_buffer sb1 (this s))))))))
    /\ accounts new [ib; sb2; vb; sb1] [sb2; sb1] [im; sm2; vm; sm1] [sm2; sm1] [] []
    /\ recorded new = [ vkCmdCopyBuffer cmd sb1 vb (3 * sizeof_SimpleVertex);
                        vkCmdCopyBuffer cmd sb2 ib (3 * sizeof_uint32_t) ].
Proof.
  destruct s as [th ubo sm im lg me]. intros H.
  unfold prepareSimpleVertexAndIndexBuffers, staged_upload, createBuffer, submitWork in H.
  run_effect H lg.
Qed.

Lemma prepareTextureVertexAndIndexBuffers_effect env s s' :
  prepareTextureVertexAndIndexBuffers env s = (Returned tt, s') ->
  exists new, log s' = new ++ log s /\
  exists cmd sb1 sm1 vb vm sb2 sm2 ib im,
    this s'
    = upd index_memory im (upd index_buffer ib
        (upd staging_memory sm2 (upd staging_buffer sb2
          (upd vertex_memory vm (upd vertex_buffer vb
            (upd staging_memory sm1 (upd staging_buffer sb1
              (upd index_buffer_count 3 (this s)))))))))
    /\ accounts new [ib; sb2; vb; sb1] [sb2; sb1] [im; sm2; vm; sm1] [sm2; sm1] [] []
    /\ recorded new = [ vkCmdCopyBuffer cmd sb1 vb (3 * sizeof_TextureVertex);
                        vkCmdCopyBuffer cmd sb2 ib (3 * sizeof_uint32_t) ].
Proof.
  destruct s as [th ubo sm im lg me]. intros H.
  unfold prepareTextureVertexAndIndexBuffers, staged_upload, createBuffer,
    submitWork in H.
  run_effect H lg.
Qed.

Lemma loadTextureFromFile_effect env fname s s' :
  loadTextureFromFile env fname s = (Returned tt, s') ->
  exists new, log s' = new ++ log s /\
  exists cmd tw th sbuf smem ti tm ts tv,
    this s'
    = upd texture_view tv (upd texture_sampler ts
        (upd texture_imageLayout VK_IMAGE_LAYOUT_SHADER_READ_ONLY_OPTIMAL
          (upd texture_deviceMemory tm (upd texture_image ti
            (upd texture_mipLevels 1 (upd texture_height th
              (upd texture_width tw (this s))))))))
    /\ accounts new [sbuf] [sbuf] [tm; smem] [smem] [ti] []
    /\ recorded new = texture_upload_commands cmd sbuf ti tw th.
Proof.
  destruct s as [th ubo sm im lg me]. intros H.
  unfold loadTextureFromFile, flushCommandBuffer, createCommandBuffer_in_pool in H.
  run_effect H lg.
Qed.

Lemma createFramebufferAttachments_effect env s s' :
  createFramebufferAttachments env s = (Returned tt, s') ->
  exists new, log s' = new ++ log s /\
  exists ci cm cv di dm dv,
    this s'
    = upd depth_attachment_view dv (upd depth_attachment_memory dm
        (upd depth_attachment_image di
          (upd depth_format (getSupportedDepthFormat env)
            (upd color_attachment_view cv (upd color_attachment_memory cm
              (upd color_attachment_image ci
                (upd color_format VK_FORMAT_R8G8B8A8_UNORM (this s))))))))
    /\ accounts new [] [] [dm; cm] [] [di; ci] []
    /\ recorded new = [].
Proof.
  destruct s as [th ubo sm im lg me]. intros H.
  unfold createFramebufferAttachments in H.
  run_effect H lg.
Qed.

Lemma createRenderPass_effect env s s' :
  createRenderPass env s = (Returned tt, s') ->
  exists new, log s' = new ++ log s /\
  exists rp fb,
    this s' = upd framebuffer fb (upd render_pass rp (this s))
    /\ accounts new [] [] [] [] [] []
    /\ recorded new = [].
Proof.
  destruct s as [th ubo sm im lg me]. intros H.
  unfold createRenderPass in H.
  run_effect H lg.
Qed.

Lemma prepareGraphicsPipelineSimple_effect env s s' :
  prepareGraphicsPipelineSimple env s = (Returned tt, s') ->
  exists new, log s' = new ++ log s /\
  exists dsl pl pc p,
    this s'
    = upd pipeline p (upd pipeline_cache pc (upd pipeline_layout pl
        (upd descriptor_set_layout dsl (this s))))
    /\ accounts new [] [] [] [] [] []
    /\ recorded new = [].
Proof.
  destruct s as [th ubo sm im lg me]. intros H.
  unfold prepareGraphicsPipelineSimple in H.
  run_effect H lg.
Qed.

Lemma prepareGraphicsPipelineTexture_effect env s s' :
  prepareGraphicsPipelineTexture env s = (Returned tt, s') ->
  exists new, log s' = new ++ log s /\
  exists ub um dsl pl pc p dp ds,
    this s'
    = upd descriptor_set ds (upd descriptor_pool dp
        (upd pipeline p (upd pipeline_cache pc (upd pipeline_layout pl
          (upd descriptor_set_layout dsl
            (upd uniform_buffer_memory um
              (upd uniform_buffer_modelview ub (this s))))))))
    /\ accounts new [ub] [] [um] [] [] []
    /\ recorded new = [].
Proof.
  destruct s as [th ubo sm im lg me]. intros H.
  unfold prepareGraphicsPipelineTexture, createBuffer in H.
  run_effect H lg.
Qed.

Lemma createCommandBuffer_effect env s s' :
  createCommandBuffer env s = (Returned tt, s') ->
  exists new, log s' = new ++ log s /\
  exists cmd,
    this s' = this s /\ accounts new [] [] [] [] [] []
    /\ recorded new
       = frame_commands cmd (this s render_pass) (this s framebuffer) (this s pipeline)
           (this s vertex_buffer) (this s index_buffer) (this s pipeline_layout)
           (this s width) (this s height).
Proof.
  destruct s as [th ubo sm im lg me]. intros H.
  unfold createCommandBuffer, submitWork, pos, mvpMatrix in H.
  run_effect H lg.
Qed.

Lemma createCommandBufferTexture_effect env s s' :
  createCommandBufferTexture env s = (Returned tt, s') ->
  exists new, log s' = new ++ log s /\
  exists cmd,
    this s' = this s /\ accounts new [] [] [] [] [] []
    /\ recorded new
       = textured_frame_commands cmd (this s render_pass) (this s framebuffer)
           (this s pipeline_layout) (this s descriptor_set) (this s pipeline)
           (this s vertex_buffer) (this s index_buffer) (this s index_buffer_count)
           (this s width) (this s height).
Proof.
  destruct s as [th ubo sm im lg me]. intros H.
  unfold createCommandBufferTexture, submitWork in H.
  run_effect H lg.
Qed.

Lemma saveFramebufferImage_effect env fname s s' :
  saveFramebufferImage env fname s = (Returned tt, s') ->
  exists new, log s' = new ++ log s /\
  exists cmd img mem,
    this s' = this s /\ accounts new [] [] [mem] [mem] [img] [img]
    /\ recorded new
       = readback_commands cmd (this s color_attachment_image) img
           (this s width) (this s height).
Proof.
  destruct s as [th ubo sm im lg me]. intros H.
  unfold saveFramebufferImage, submitWork in H.
  run_effect H lg.
Qed.

(** The constructor up to createCommandPool. *)
Lemma bootstrap env w h tex s s' :
  (set width w ;; set height h ;; set use_texture tex ;;
   createInstance env ;; setupDebugMessenger env ;; pickPhysicalDevice env ;;
   createLogicalDevice env ;; createCommandPool env) s = (Returned tt, s') ->
  exists boot, log s' = boot ++ log s /\ quiet boot
    /\ this s' width = w /\ this s' height = h.
Proof.
  destruct s as [th ubo sm im lg me]. intros H.
  assert (C : confined quiet_call extent
                (set use_texture tex ;;
                 createInstance env ;; setupDebugMessenger env ;;
                 pickPhysicalDevice env ;; createLogicalDevice env ;;
                 createCommandPool env)).
  { cbv beta zeta.
    repeat first
      [ apply quiet_createInstance | apply quiet_setupDebugMessenger
      | apply quiet_pickPhysicalDevice | apply quiet_createLogicalDevice
      | apply quiet_createCommandPool | confined_step ]. }
  specialize (C (mkState (upd height h (upd width w th)) ubo sm im lg me)).
  replace ((set use_texture tex ;;
            createInstance env ;; setupDebugMessenger env ;;
            pickPhysicalDevice env ;; createLogicalDevice env ;;
            createCommandPool env)
             (mkState (upd height h (upd width w th)) ubo sm im lg me))
    with (Returned tt, s') in C by (symmetry; exact H).
  destruct C as [(boot & L & Q) K]. cbn [snd log this] in *.
  exists boot. split; [exact L|]. split; [exact Q|].
  rewrite !K by reflexivity. split; reflexivity.
Qed.

(** The phases of a constructor that returns. *)
Lemma RenderImage_phases env w h fname tex s s' :
  RenderImage env w h fname tex s = (Returned tt, s') ->
  exists s1 s2 s3 s4 s5,
    (set width w ;; set height h ;; set use_texture (if tex then 1 else 0) ;;
     createInstance env ;; setupDebugMessenger env ;; pickPhysicalDevice env ;;
     createLogicalDevice env ;; createCommandPool env) s = (Returned tt, s1)
    /\ (if tex then
          modify (with_ubo_scene (camera_ubo env)) ;;
          loadTextureFromFile env "textures/statue.jpg" ;;
          prepareTextureVertexAndIndexBuffers env
        else prepareSimpleVertexAndIndexBuffers env) s1 = (Returned tt, s2)
    /\ createFramebufferAttachments env s2 = (Returned tt, s3)
    /\ createRenderPass env s3 = (Returned tt, s4)
    /\ (if tex then
          prepareGraphicsPipelineTexture env ;; createCommandBufferTexture env
        else prepareGraphicsPipelineSimple env ;; createCommandBuffer env) s4
       = (Returned tt, s5)
    /\ saveFramebufferImage env fname s5 = (Returned tt, s').
Proof.
  unfold RenderImage, bind. intros H.
  repeat match type of H with
         | context [match ?m ?st with _ => _ end] =>
             destruct (m st) as [[[]|?] ?] eqn:?; try discriminate H
         end.
  repeat eexists; eassumption.
Qed.

Lemma no_buffer_among_shader_modules l :
  Teardown.buffers (map Teardown.vkDestroyShaderModule l) = []
  /\ Teardown.memories (map Teardown.vkDestroyShaderModule l) = []
  /\ Teardown.images (map Teardown.vkDestroyShaderModule l) = [].
Proof. induction l as [|m l IH]; cbn; auto. Qed.

Lemma destructor_releases env s :
  Teardown.buffers (fst (destructor env s))
  = [ this s vertex_buffer; this s index_buffer ]
  /\ Teardown.memories (fst (destructor env s))
     = [ this s vertex_memory; this s index_memory;
         this s color_attachment_memory; this s depth_attachment_memory ]
  /\ Teardown.images (fst (destructor env s))
     = [ this s color_attachment_image; this s depth_attachment_image ].
Proof.
  destruct (no_buffer_among_shader_modules (shader_modules s)) as (Hb & Hm & Hi).
  unfold destructor.
  destruct (DEBUG env && negb (this s debug_report_callback =? 0));
    [destruct (handle env (List.length (log s)) =? 0)|];
    cbn [fst]; unfold Teardown.buffers, Teardown.memories, Teardown.images;
    rewrite !flat_map_app;
    fold (Teardown.buffers (map Teardown.vkDestroyShaderModule (shader_modules s)));
    fold (Teardown.memories (map Teardown.vkDestroyShaderModule (shader_modules s)));
    fold (Teardown.images (map Teardown.vkDestroyShaderModule (shader_modules s)));
    rewrite Hb, Hm, Hi; repeat split; reflexivity.
Qed.


Ltac split_at a r :=
  match r with
  | a :: ?t => constr:((@nil Z, t))
  | ?b :: ?t =>
      let p := split_at a t in
      match p with (?l1, ?l2) => constr:((b :: l1, l2)) end
  end.

(** Decides that two explicit lists are permutations of each other. *)
Ltac permutation :=
  repeat match goal with
         | |- Permutation [] [] => apply perm_nil
         | |- Permutation (?a :: ?l) ?r =>
             let p := split_at a r in
             match p with
             | (?l1, ?l2) => apply (Permutation_cons_app l1 l2 a); cbn [app]
             end
         end.

(** Reads a member off a chain of assignments. *)
Ltac lookups :=
  cbv beta iota delta [upd Var_eq_dec Var_rec Var_rect sumbool_rec sumbool_rect].

Ltac untextured_phases H :=
  apply RenderImage_phases in H as (s1 & s2 & s3 & s4 & s5 & H1 & H2 & H3 & H4 & H5 & H6);
  apply bind_returned in H5 as ([] & s45 & H5 & H5');
  apply bootstrap in H1 as (n1 & L1 & Q1 & W1 & W1');
  pose proof (proj1 (quiet_facts _ Q1)) as R1;
  apply accounts_quiet in Q1;
  apply prepareSimpleVertexAndIndexBuffers_effect in H2
    as (n2 & L2 & up & sb1 & sm1 & vb & vm & sb2 & sm2 & ib & im & T2 & A2 & R2);
  apply createFramebufferAttachments_effect in H3
    as (n3 & L3 & ci & cm & cv & di & dm & dv & T3 & A3 & R3);
  apply createRenderPass_effect in H4 as (n4 & L4 & rp & fb & T4 & A4 & R4);
  apply prepareGraphicsPipelineSimple_effect in H5
    as (n5 & L5 & dsl & pl & pc & p & T5 & A5 & R5);
  apply createCommandBuffer_effect in H5' as (n6 & L6 & fr & T6 & A6 & R6);
  apply saveFramebufferImage_effect in H6 as (n7 & L7 & rb & img & mem & T7 & A7 & R7);
  exists (n7 ++ n6 ++ n5 ++ n4 ++ n3 ++ n2 ++ n1);
  (split; [rewrite L7, L6, L5, L4, L3, L2, L1, <- !app_assoc; reflexivity|]).

Ltac textured_phases H :=
  apply RenderImage_phases in H as (s1 & s2 & s3 & s4 & s5 & H1 & H2 & H3 & H4 & H5 & H6);
  apply bind_returned in H2 as ([] & s12 & H2 & H2');
  apply bind_returned in H2' as ([] & s12' & H2' & H2'');
  apply bind_returned in H5 as ([] & s45 & H5 & H5');
  apply bootstrap in H1 as (n1 & L1 & Q1 & W1 & W1');
  pose proof (proj1 (quiet_facts _ Q1)) as R1;
  apply accounts_quiet in Q1;
  unfold modify in H2; injection H2 as <-;
  apply loadTextureFromFile_effect in H2'
    as (n2 & L2 & tc & tw & th & sbuf & smem & ti & tm & ts & tv & T2 & A2 & R2);
  apply prepareTextureVertexAndIndexBuffers_effect in H2''
    as (n2' & L2' & up & sb1 & sm1 & vb & vm & sb2 & sm2 & ib & im & T2' & A2' & R2');
  apply createFramebufferAttachments_effect in H3
    as (n3 & L3 & ci & cm & cv & di & dm & dv & T3 & A3 & R3);
  apply createRenderPass_effect in H4 as (n4 & L4 & rp & fb & T4 & A4 & R4);
  apply prepareGraphicsPipelineTexture_effect in H5
    as (n5 & L5 & ub & um & dsl & pl & pc & p & dp & ds & T5 & A5 & R5);
  apply createCommandBufferTexture_effect in H5' as (n6 & L6 & fr & T6 & A6 & R6);
  apply saveFramebufferImage_effect in H6 as (n7 & L7 & rb & img & mem & T7 & A7 & R7);
  cbn [this log with_ubo_scene] in *;
  exists (n7 ++ n6 ++ n5 ++ n4 ++ n3 ++ n2' ++ n2 ++ n1);
  (split; [rewrite L7, L6, L5, L4, L3, L2', L2, L1, <- !app_assoc; reflexivity|]).

(** ** The swizzle decision on a run *)






(** ** Resources and commands of a whole run *)

(** X10.  A constructor without texture that returns, followed by the
    destructor, releases what it has created: the buffers created by the
    successful vkCreateBuffer calls are, counted with multiplicity, those the
    constructor destroys itself (the staging buffers) together with those the
    destructor destroys (vertex and index buffer); the same holds for the
    memory blocks and vkFreeMemory, and for the images and vkDestroyImage. *)
Theorem untextured_run_releases_what_it_created env w h fname s s' :
  RenderImage env w h fname false s = (Returned tt, s') ->
  exists new,
    log s' = new ++ log s
    /\ Permutation (created_of is_vkCreateBuffer new)
         (destroyed_buffers new ++ Teardown.buffers (fst (destructor env s')))
    /\ Permutation (created_of is_vkAllocateMemory new)
         (freed_memory new ++ Teardown.memories (fst (destructor env s')))
    /\ Permutation (created_of is_vkCreateImage new)
         (destroyed_images new ++ Teardown.images (fst (destructor env s'))).
Proof.
  intros H. untextured_phases H.
  pose proof (accounts_app _ _ _ _ _ _ _ _ _ _ _ _ _ _ A7
               (accounts_app _ _ _ _ _ _ _ _ _ _ _ _ _ _ A6
               (accounts_app _ _ _ _ _ _ _ _ _ _ _ _ _ _ A5
               (accounts_app _ _ _ _ _ _ _ _ _ _ _ _ _ _ A4
               (accounts_app _ _ _ _ _ _ _ _ _ _ _ _ _ _ A3
               (accounts_app _ _ _ _ _ _ _ _ _ _ _ _ _ _ A2 Q1))))))
    as (B1 & B2 & B3 & B4 & B5 & B6).
  destruct (destructor_releases env s') as (D1 & D2 & D3).
  rewrite B1, B2, B3, B4, B5, B6, D1, D2, D3, T7, T6, T5, T4, T3, T2.
  lookups. cbn [app].
  repeat split; permutation.
Qed.

Lemma untextured_run_releases_what_it_created_witness :
  let s' := snd (RenderImage env_ok 2 2 "headless.ppm" false s0) in
  exists new,
    log s' = new ++ log s0
    /\ Permutation (created_of is_vkCreateBuffer new)
         (destroyed_buffers new ++ Teardown.buffers (fst (destructor env_ok s')))
    /\ Permutation (created_of is_vkAllocateMemory new)
         (freed_memory new ++ Teardown.memories (fst (destructor env_ok s')))
    /\ Permutation (created_of is_vkCreateImage new)
         (destroyed_images new ++ Teardown.images (fst (destructor env_ok s'))).
Proof.
  apply (untextured_run_releases_what_it_created env_ok 2 2 "headless.ppm" s0
           (snd (RenderImage env_ok 2 2 "headless.ppm" false s0))).
  vm_compute. reflexivity.
Defined.

(** X11.  A constructor with texture that returns, followed by
    [~RenderImage], leaves four objects unreleased: besides what the calls of
    the two release, the successful creations account for exactly one more
    buffer, the uniform buffer, two more memory blocks, those of the uniform
    buffer and of the texture, and one more image, the texture.  Neither the
    constructor nor [~RenderImage] has a call that releases them. *)
Theorem textured_run_never_releases_texture_and_uniform_buffer env w h fname s s' :
  RenderImage env w h fname true s = (Returned tt, s') ->
  exists new,
    log s' = new ++ log s
    /\ Permutation (created_of is_vkCreateBuffer new)
         (destroyed_buffers new ++ Teardown.buffers (fst (destructor env s'))
          ++ [this s' uniform_buffer_modelview])
    /\ Permutation (created_of is_vkAllocateMemory new)
         (freed_memory new ++ Teardown.memories (fst (destructor env s'))
          ++ [this s' uniform_buffer_memory; this s' texture_deviceMemory])
    /\ Permutation (created_of is_vkCreateImage new)
         (destroyed_images new ++ Teardown.images (fst (destructor env s'))
          ++ [this s' texture_image]).
Proof.
  intros H. textured_phases H.
  pose proof (accounts_app _ _ _ _ _ _ _ _ _ _ _ _ _ _ A7
               (accounts_app _ _ _ _ _ _ _ _ _ _ _ _ _ _ A6
               (accounts_app _ _ _ _ _ _ _ _ _ _ _ _ _ _ A5
               (accounts_app _ _ _ _ _ _ _ _ _ _ _ _ _ _ A4
               (accounts_app _ _ _ _ _ _ _ _ _ _ _ _ _ _ A3
               (accounts_app _ _ _ _ _ _ _ _ _ _ _ _ _ _ A2'
               (accounts_app _ _ _ _ _ _ _ _ _ _ _ _ _ _ A2 Q1)))))))
    as (B1 & B2 & B3 & B4 & B5 & B6).
  destruct (destructor_releases env s') as (D1 & D2 & D3).
  rewrite B1, B2, B3, B4, B5, B6, D1, D2, D3, T7, T6, T5, T4, T3, T2', T2.
  lookups. cbn [app].
  repeat split; permutation.
Qed.

Lemma textured_run_never_releases_texture_and_uniform_buffer_witness :
  let s' := snd (RenderImage env_ok 2 2 "headless.ppm" true s0) in
  exists new,
    log s' = new ++ log s0
    /\ Permutation (created_of is_vkCreateBuffer new)
         (destroyed_buffers new ++ Teardown.buffers (fst (destructor env_ok s'))
          ++ [this s' uniform_buffer_modelview])
    /\ Permutation (created_of is_vkAllocateMemory new)
         (freed_memory new ++ Teardown.memories (fst (destructor env_ok s'))
          ++ [this s' uniform_buffer_memory; this s' texture_deviceMemory])
    /\ Permutation (created_of is_vkCreateImage new)
         (destroyed_images new ++ Teardown.images (fst (destructor env_ok s'))
          ++ [this s' texture_image]).
Proof.
  apply (textured_run_never_releases_texture_and_uniform_buffer env_ok 2 2 "headless.ppm" s0
           (snd (RenderImage env_ok 2 2 "headless.ppm" true s0))).
  vm_compute. reflexivity.
Defined.

(** X12.  Everything a constructor without texture that returns has recorded
    into command buffers, from first to last: the copy of 3 vertices of 24
    bytes from a staging buffer into the vertex buffer and the copy of 3
    indices of 4 bytes into the index buffer, both in one command buffer; the
    frame with its three draws, on the render pass, framebuffer, pipeline and
    buffers the object holds at the end, over the extent the constructor was
    given; and the readback of the colour attachment into a fresh image
    between its two barriers. *)
Theorem untextured_run_command_stream env w h fname s s' :
  RenderImage env w h fname false s = (Returned tt, s') ->
  exists new,
    log s' = new ++ log s
    /\ exists up sb1 sb2 fr rb dst,
         recorded new = untextured_stream s' w h up sb1 sb2 fr rb dst.
Proof.
  intros H. untextured_phases H.
  exists up, sb1, sb2, fr, rb, img.
  rewrite !recorded_app, R1, R2, R3, R4, R5, R6, R7.
  unfold untextured_stream.
  rewrite T7, T6, T5, T4, T3, T2.
  lookups. rewrite W1, W1'. reflexivity.
Qed.

Lemma untextured_run_command_stream_witness :
  let s' := snd (RenderImage env_ok 2 2 "headless.ppm" false s0) in
  exists new,
    log s' = new ++ log s0
    /\ exists up sb1 sb2 fr rb dst,
         recorded new = untextured_stream s' 2 2 up sb1 sb2 fr rb dst.
Proof.
  apply (untextured_run_command_stream env_ok 2 2 "headless.ppm" s0
           (snd (RenderImage env_ok 2 2 "headless.ppm" false s0))).
  vm_compute. reflexivity.
Defined.

(** X13.  Everything a constructor with texture that returns has recorded:
    the upload of the texture between its two barriers; the copy of 3
    vertices of 20 bytes and of 3 indices of 4 bytes; the frame, which binds
    the descriptor set, the pipeline and the two buffers and draws once, 3
    indices, the count prepareTextureVertexAndIndexBuffers has stored; and
    the readback. *)
Theorem textured_run_command_stream env w h fname s s' :
  RenderImage env w h fname true s = (Returned tt, s') ->
  exists new,
    log s' = new ++ log s
    /\ exists tc tsb up sb1 sb2 fr rb dst,
         recorded new = textured_stream s' w h tc tsb up sb1 sb2 fr rb dst.
Proof.
  intros H. textured_phases H.
  exists tc, sbuf, up, sb1, sb2, fr, rb, img.
  rewrite !recorded_app, R1, R2, R2', R3, R4, R5, R6, R7.
  unfold textured_stream.
  rewrite T7, T6, T5, T4, T3, T2', T2.
  lookups. rewrite W1, W1'. reflexivity.
Qed.

Lemma textured_run_command_stream_witness :
  let s' := snd (RenderImage env_ok 2 2 "headless.ppm" true s0) in
  exists new,
    log s' = new ++ log s0
    /\ exists tc tsb up sb1 sb2 fr rb dst,
         recorded new = textured_stream s' 2 2 tc tsb up sb1 sb2 fr rb dst.
Proof.
  apply (textured_run_command_stream env_ok 2 2 "headless.ppm" s0
           (snd (RenderImage env_ok 2 2 "headless.ppm" true s0))).
  vm_compute. reflexivity.
Defined.

(** ** The file *)

Lemma files_written_app a b : files_written (a ++ b) = files_written a ++ files_written b.
Proof. apply flat_map_app. Qed.

Lemma no_file_written new :
  forallb (fun e => no_file (call e)) new = true -> files_written new = [].
Proof.
  induction new as [|[c r o] new IH]; [reflexivity|].
  cbn [forallb call]. intros H. apply andb_prop in H as [Hc H].
  unfold files_written. cbn [flat_map call]. fold (files_written new).
  rewrite (IH H). destruct c; try discriminate Hc; reflexivity.
Qed.

Lemma saveFramebufferImage_writes_image_last env fname s :
  writes_image_last fname (this s width) (this s height) s
    (saveFramebufferImage env fname s).
Proof.
  destruct s as [th ubo sm im lg me].
  unfold writes_image_last, saveFramebufferImage, submitWork. exec.
  repeat match goal with
         | |- context [status ?e ?n =? VK_SUCCESS] =>
             destruct (status e n =? VK_SUCCESS); exec
         end;
    give_new_events lg; (split; [reflexivity|]);
    try reflexivity; do 3 eexists; reflexivity.
Qed.

Lemma writes_image_last_bind {A} fname w h (m : M A) (k : A -> M unit) s :
  confined no_file extent m ->
  this s width = w -> this s height = h ->
  (forall a s1, this s1 width = w -> this s1 height = h ->
                writes_image_last fname w h s1 (k a s1)) ->
  writes_image_last fname w h s (bind m k s).
Proof.
  intros Hm Hw Hh Hk. destruct (Hm s) as [(n & L & F) K].
  apply no_file_written in F.
  unfold bind. destruct (m s) as [[a|why] s1]; cbn [snd] in *.
  - destruct (Hk a s1) as (n' & L' & P).
    + rewrite K by reflexivity. exact Hw.
    + rewrite K by reflexivity. exact Hh.
    + exists (n' ++ n). split; [rewrite L', L, app_assoc; reflexivity|].
      rewrite files_written_app, F, app_nil_r. exact P.
  - exists n. split; [exact L | exact F].
Qed.

Lemma RenderImage_writes_image_last env w h fname tex s :
  writes_image_last fname w h s (RenderImage env w h fname tex s).
Proof.
  destruct s as [th ubo sm im lg me]. unfold RenderImage.
  change (writes_image_last fname w h
            (mkState (upd height h (upd width w th)) ubo sm im lg me)
            ((set use_texture (if tex then 1 else 0) ;;
              createInstance env ;; setupDebugMessenger env ;;
              pickPhysicalDevice env ;; createLogicalDevice env ;;
              createCommandPool env ;;
              (if tex then
                 modify (with_ubo_scene (camera_ubo env)) ;;
                 loadTextureFromFile env "textures/statue.jpg" ;;
                 prepareTextureVertexAndIndexBuffers env
               else prepareSimpleVertexAndIndexBuffers env) ;;
              createFramebufferAttachments env ;;
              createRenderPass env ;;
              (if tex then
                 prepareGraphicsPipelineTexture env ;; createCommandBufferTexture env
               else prepareGraphicsPipelineSimple env ;; createCommandBuffer env) ;;
              saveFramebufferImage env fname)
               (mkState (upd height h (upd width w th)) ubo sm im lg me))).
  repeat lazymatch goal with
         | |- writes_image_last _ _ _ _ (bind _ _ _) =>
             apply writes_image_last_bind;
             [ confined_walk | try reflexivity; assumption
             | try reflexivity; assumption | intros ? ? ? ? ]
         end.
  match goal with
  | Hw : this ?s1 width = w, Hh : this ?s1 height = h |- _ =>
      rewrite <- Hw at 1; rewrite <- Hh at 1
  end.
  apply saveFramebufferImage_writes_image_last.
Qed.

Lemma ppm_file_pixels mem swz w h p a :
  exists pixels,
    ppm_file mem swz w h p a = ppm_header w h ++ pixels
    /\ List.length pixels = (3 * Z.to_nat w * Z.to_nat h)%nat.
Proof.
  exists (write_rows mem swz w p a (Z.to_nat h)). split; [reflexivity|].
  rewrite write_rows_length. lia.
Qed.

(** X14.  However the constructor ends, it has written at most one file.  A
    run that returns has written exactly one, under the name it was given:
    the header for the width and height it was given, followed by three
    bytes for each pixel.  A run that stops, at whatever call, has written
    none. *)
Theorem RenderImage_writes_one_image_or_nothing env w h fname tex s :
  let run := RenderImage env w h fname tex s in
  exists new,
    log (snd run) = new ++ log s
    /\ match fst run with
       | Returned _ =>
           exists pixels,
             files_written new = [(fname, ppm_header w h ++ pixels)]
             /\ List.length pixels = (3 * Z.to_nat w * Z.to_nat h)%nat
       | Stopped _ => files_written new = []
       end.
Proof.
  cbv zeta.
  destruct (RenderImage_writes_image_last env w h fname tex s) as (new & L & F).
  exists new. split; [exact L|].
  destruct (fst (RenderImage env w h fname tex s)) as [[]|why]; [|exact F].
  destruct F as (mem & pitch & start & F).
  destruct (ppm_file_pixels mem color_swizzle w h pitch start) as (pixels & E & Hlen).
  exists pixels. rewrite F, E. auto.
Qed.

(** X15.  When main, started without the help option, returns 0, the one
    file the program has written is named headless.png and holds a PPM image:
    the P6 header for 640 by 512 pixels followed by 640 * 512 * 3 bytes.
    This holds with and without the use_vertex option. *)
Theorem main_writes_a_ppm_named_png env use_vertex s :
  fst (fst (main env false use_vertex s)) = Returned 0 ->
  exists new pixels,
    log (snd (fst (main env false use_vertex s))) = new ++ log s
    /\ files_written new = [("headless.png"%string, ppm_header 640 512 ++ pixels)]
    /\ List.length pixels = (3 * 640 * 512)%nat.
Proof.
  unfold main.
  destruct (RenderImage_writes_image_last env 640 512 "headless.png"
              (negb use_vertex) s) as (new & L & F).
  destruct (RenderImage env 640 512 "headless.png" (negb use_vertex) s)
    as [[[]|why] s']; cbn [fst snd] in *; [|discriminate].
  intros _. destruct F as (mem & pitch & start & F).
  destruct (ppm_file_pixels mem color_swizzle 640 512 pitch start)
    as (pixels & E & Hlen).
  exists new, pixels. rewrite F, E. repeat split; [exact L | exact Hlen].
Qed.

Lemma main_writes_a_ppm_named_png_witness :
  exists new pixels,
    log (snd (fst (main env_ok false true s0))) = new ++ log s0
    /\ files_written new = [("headless.png"%string, ppm_header 640 512 ++ pixels)]
    /\ List.length pixels = (3 * 640 * 512)%nat.
Proof.
  apply (main_writes_a_ppm_named_png env_ok true s0).
  vm_compute. reflexivity.
Defined.

(** ** Where the constructor stops *)

Lemma halts_bind env {A B} (m : M A) (f : A -> M B) :
  halts_at_failure env m -> (forall a, halts_at_failure env (f a)) ->
  halts_at_failure env (bind m f).
Proof.
  intros Hm Hf s. specialize (Hm s). unfold bind.
  destruct (m s) as [[a|why] s1]; cbn [fst snd] in *; [apply Hf | exact Hm].
Qed.

(** What cannot stop halts nowhere. *)
Lemma halts_returning env {A} (m : M A) :
  (forall s, exists a, fst (m s) = Returned a) -> halts_at_failure env m.
Proof. intros Hm s. destruct (Hm s) as [a ->]. exact I. Qed.

Lemma halts_check env (m : M VkResult) :
  reports m -> halts_at_failure env m -> halts_at_failure env (VK_CHECK_RESULT m).
Proof.
  intros Hr Hm s. specialize (Hm s). specialize (Hr s).
  unfold VK_CHECK_RESULT, bind.
  destruct (m s) as [[r|why] s1]; cbn [fst snd] in *; [|exact Hm].
  destruct (r =? VK_SUCCESS) eqn:E; cbn; [exact I|].
  apply Z.eqb_neq in E. split; [exact E|].
  destruct (Hr r s1 eq_refl) as [->|Hlast]; [congruence | exact Hlast].
Qed.

Lemma reports_api env c : reports (api env c).
Proof. intros s r s' H. injection H as <- <-. right. cbn. eauto. Qed.

Lemma reports_api_into env v c : reports (api_into env v c).
Proof. intros s r s' H. injection H as <- <-. right. cbn. eauto. Qed.

Lemma reports_queue_submit env q cmd fence : reports (queue_submit env q cmd fence).
Proof. intros s r s' H. injection H as <- <-. right. cbn. eauto. Qed.

Lemma halts_checked_local env c : halts_at_failure env (checked_local env c).
Proof.
  intros s. unfold checked_local, api_out, VK_CHECK_RESULT, bind, ret, stop.
  cbn [fst snd].
  destruct (status env (List.length (log s)) =? VK_SUCCESS) eqn:E; cbn; [exact I|].
  apply Z.eqb_neq in E. split; [exact E|]. eauto.
Qed.

Lemma halts_for_each env {A} (l : list A) (body : A -> M unit) :
  (forall a, halts_at_failure env (body a)) -> halts_at_failure env (for_each l body).
Proof.
  intros Hb. induction l as [|a l IH]; cbn [for_each fold_right].
  - intros s. exact I.
  - apply halts_bind; [apply Hb|]. intros _. exact IH.
Qed.

Create HintDb halts.

Ltac never_stops := apply halts_returning; intros ?; eexists; reflexivity.

Ltac halts_step :=
  lazymatch goal with
  | |- halts_at_failure _ (bind _ _) => apply halts_bind; [|intros ?]
  | |- halts_at_failure _ (ret _) => never_stops
  | |- halts_at_failure _ (get _) => never_stops
  | |- halts_at_failure _ get_state => never_stops
  | |- halts_at_failure _ (set _ _) => never_stops
  | |- halts_at_failure _ (modify _) => never_stops
  | |- halts_at_failure _ (api _ _) => never_stops
  | |- halts_at_failure _ (api_into _ _ _) => never_stops
  | |- halts_at_failure _ (void _) => never_stops
  | |- halts_at_failure _ (void_out _ _) => never_stops
  | |- halts_at_failure _ (queue_submit _ _ _ _) => never_stops
  | |- halts_at_failure _ (do_memcpy _ _) => never_stops
  | |- halts_at_failure _ (checked_local _ _) => apply halts_checked_local
  | |- halts_at_failure _ (VK_CHECK_RESULT (api _ _)) =>
      apply halts_check; [apply reports_api|]
  | |- halts_at_failure _ (VK_CHECK_RESULT (api_into _ _ _)) =>
      apply halts_check; [apply reports_api_into|]
  | |- halts_at_failure _ (VK_CHECK_RESULT (queue_submit _ _ _ _)) =>
      apply halts_check; [apply reports_queue_submit|]
  | |- halts_at_failure _ (for_each _ _) => apply halts_for_each; intros ?
  | |- halts_at_failure _ (if ?b then _ else _) => destruct b
  | |- halts_at_failure _ (match ?x with _ => _ end) => destruct x
  | |- halts_at_failure _ _ => solve [auto with halts]
  end.

Ltac halts_walk := cbv beta zeta; repeat halts_step.

Lemma halts_submitWork env cmd q : halts_at_failure env (submitWork env cmd q).
Proof. unfold submitWork. halts_walk. Qed.

Lemma halts_flushCommandBuffer env cmd q pool free :
  halts_at_failure env (flushCommandBuffer env cmd q pool free).
Proof. unfold flushCommandBuffer. halts_walk. Qed.

Lemma halts_createCommandBuffer_in_pool env pool begin :
  halts_at_failure env (createCommandBuffer_in_pool env pool begin).
Proof. unfold createCommandBuffer_in_pool. halts_walk. Qed.

Lemma halts_call_getMemoryTypeIndex env bits props :
  halts_at_failure env (call_getMemoryTypeIndex env bits props).
Proof. unfold call_getMemoryTypeIndex. halts_walk. Qed.

Lemma halts_begin_frame env cmd : halts_at_failure env (begin_frame cmd).
Proof. unfold begin_frame. halts_walk. Qed.

Lemma halts_insertImageMemoryBarrier env cmd img sa da old new ss ds range :
  halts_at_failure env (insertImageMemoryBarrier cmd img sa da old new ss ds range).
Proof. unfold insertImageMemoryBarrier. halts_walk. Qed.

#[local] Hint Resolve halts_submitWork halts_flushCommandBuffer
  halts_createCommandBuffer_in_pool halts_call_getMemoryTypeIndex
  halts_begin_frame halts_insertImageMemoryBarrier : halts.

Lemma halts_createBuffer env usage props buffer mem size data :
  halts_at_failure env (createBuffer env usage props buffer mem size data).
Proof. unfold createBuffer. halts_walk. Qed.

(** createBuffer has one result. *)
Lemma createBuffer_result env usage props buffer mem size data s r s' :
  createBuffer env usage props buffer mem size data s = (Returned r, s') ->
  r = VK_SUCCESS.
Proof.
  unfold createBuffer. intros H.
  repeat (apply bind_returned in H as (? & ? & _ & H)).
  injection H as <- _. reflexivity.
Qed.

Lemma halts_checked_createBuffer env usage props buffer mem size data :
  halts_at_failure env
    (VK_CHECK_RESULT (createBuffer env usage props buffer mem size data)).
Proof.
  apply halts_check; [|apply halts_createBuffer].
  intros s r s' H. left. eapply createBuffer_result, H.
Qed.

#[local] Hint Resolve halts_createBuffer halts_checked_createBuffer : halts.

Lemma halts_staged_upload env cmd usage buffer mem size data :
  halts_at_failure env (staged_upload env cmd usage buffer mem size data).
Proof. unfold staged_upload. halts_walk. Qed.

#[local] Hint Resolve halts_staged_upload : halts.

Lemma halts_createInstance env : halts_at_failure env (createInstance env).
Proof. unfold createInstance. halts_walk. Qed.

Lemma halts_setupDebugMessenger env : halts_at_failure env (setupDebugMessenger env).
Proof.
  unfold setupDebugMessenger.
  apply halts_bind; [never_stops|]. intros available.
  destruct (DEBUG env) eqn:HD; cbn [andb]; [|never_stops].
  destruct (negb (available =? 0)); [|never_stops].
  intros s. unfold bind, void_out, ret, stop. cbn [fst snd].
  destruct (handle env (List.length (log s)) =? 0) eqn:E.
  - apply Z.eqb_eq in E. cbn. rewrite E. split; [exact HD|]. eauto.
  - apply (halts_check env (api_into env debug_report_callback
                              vkCreateDebugReportCallbackEXT));
      [apply reports_api_into | never_stops].
Qed.

Lemma halts_pickPhysicalDevice env : halts_at_failure env (pickPhysicalDevice env).
Proof.
  unfold pickPhysicalDevice.
  apply halts_bind; [halts_walk|]. intros _.
  destruct (physical_devices env) eqn:HP; [|halts_walk].
  intros s. unfold VK_CHECK_RESULT, bind, api, ret, stop. cbn [fst snd].
  destruct (status env (List.length (log s)) =? VK_SUCCESS) eqn:E; cbn.
  - apply Z.eqb_eq in E. rewrite E. split; [exact HP|]. eauto.
  - apply Z.eqb_neq in E. split; [exact E|]. eauto.
Qed.

Lemma halts_createLogicalDevice env : halts_at_failure env (createLogicalDevice env).
Proof. unfold createLogicalDevice. halts_walk. Qed.

Lemma halts_createCommandPool env : halts_at_failure env (createCommandPool env).
Proof. unfold createCommandPool. halts_walk. Qed.

Lemma halts_prepareSimpleVertexAndIndexBuffers env :
  halts_at_failure env (prepareSimpleVertexAndIndexBuffers env).
Proof. unfold prepareSimpleVertexAndIndexBuffers. halts_walk. Qed.

Lemma halts_prepareTextureVertexAndIndexBuffers env :
  halts_at_failure env (prepareTextureVertexAndIndexBuffers env).
Proof. unfold prepareTextureVertexAndIndexBuffers. halts_walk. Qed.

Lemma halts_loadTextureFromFile env fname :
  halts_at_failure env (loadTextureFromFile env fname).
Proof.
  unfold loadTextureFromFile. cbv beta zeta.
  destruct (decode env (getAssetPath env ++ fname)) as [[[tw th] pixels]|] eqn:HD.
  - halts_walk.
  - intros s. cbn. split; [reflexivity|]. eauto.
Qed.

Lemma halts_createFramebufferAttachments env :
  halts_at_failure env (createFramebufferAttachments env).
Proof. unfold createFramebufferAttachments. halts_walk. Qed.

Lemma halts_createRenderPass env : halts_at_failure env (createRenderPass env).
Proof. unfold createRenderPass. halts_walk. Qed.

Lemma halts_prepareGraphicsPipelineSimple env :
  halts_at_failure env (prepareGraphicsPipelineSimple env).
Proof. unfold prepareGraphicsPipelineSimple. halts_walk. Qed.

Lemma halts_prepareGraphicsPipelineTexture env :
  halts_at_failure env (prepareGraphicsPipelineTexture env).
Proof. unfold prepareGraphicsPipelineTexture. halts_walk. Qed.

Lemma halts_createCommandBuffer env : halts_at_failure env (createCommandBuffer env).
Proof. unfold createCommandBuffer. halts_walk. Qed.

Lemma halts_createCommandBufferTexture env :
  halts_at_failure env (createCommandBufferTexture env).
Proof. unfold createCommandBufferTexture. halts_walk. Qed.

Lemma halts_saveFramebufferImage env fname :
  halts_at_failure env (saveFramebufferImage env fname).
Proof. unfold saveFramebufferImage. halts_walk. Qed.

#[local] Hint Resolve halts_createInstance halts_setupDebugMessenger
  halts_pickPhysicalDevice halts_createLogicalDevice halts_createCommandPool
  halts_prepareSimpleVertexAndIndexBuffers halts_prepareTextureVertexAndIndexBuffers
  halts_loadTextureFromFile halts_createFramebufferAttachments
  halts_createRenderPass halts_prepareGraphicsPipelineSimple
  halts_prepareGraphicsPipelineTexture halts_createCommandBuffer
  halts_createCommandBufferTexture halts_saveFramebufferImage : halts.

